(** * Slite integration: the ProseMirror converter, the event handlers, the
      metadata stamp, the formatter of meeting notes and the calls to the
      service of [src/slite_api.py]

    The development embeds the module's parts:

    - [SliteAPI._convert_to_prosemirror], the line-by-line builder of a
      ProseMirror document.  Python dicts are objects with identity: the
      builder keeps references to the open list and the open paragraph and
      appends to their ["content"] in place, also after a reference to them
      has been stored in [doc_content].  The embedding therefore has an
      explicit heap of nodes, and [doc_content] is a list of locations.
    - [SliteEventHandler], the four handler lists and their triggers.  What
      a handler does when it is called is an argument of the model: it may
      write to the payload, change the handler lists in place, and raise an
      exception whose [str] may raise in turn.
    - [SliteAPI.add_metadata].
    - The methods of [SliteAPI] that call the service ([SliteRequests]):
      what [requests] does is an argument of the model.
    - [SliteAPI.format_meeting_notes_markdown] ([MeetingNotes]).

    Python strings are modelled by [string]: a character is a code point
    below 256, and [isspace] and [isdigit] are CPython's predicates on that
    range. *)

From Stdlib Require Import String Ascii List ZArith NArith Bool Lia.
From stdpp Require Import base option list strings gmap.

Import ListNotations.
Set Warnings "-register-all".
Local Open Scope string_scope.
Local Open Scope list_scope.

(** ** Python's exceptions and a small error monad *)

Inductive exn :=
  | IndexError
  | KeyError
  | AttributeError.

Inductive result (A : Type) :=
  | Ok (a : A)
  | Raise (e : exn).

Arguments Ok {A} a.
Arguments Raise {A} e.

Definition bind {A B} (r : result A) (k : A -> result B) : result B :=
  match r with
  | Ok a => k a
  | Raise e => Raise e
  end.

Notation "'let!' x ':=' c 'in' k" := (bind c (fun x => k))
  (at level 10, x name, c at level 100, k at level 200).

(** ** The string methods the converter calls *)

Module PyStr.

(** [str.isspace] of one character: TAB..CR, FS..US, SPACE, NEL, NBSP. *)
Definition isspace (c : ascii) : bool :=
  let n := N_of_ascii c in
  ((9 <=? n) && (n <=? 13) || (28 <=? n) && (n <=? 32)
   || (n =? 133) || (n =? 160))%N.

(** [str.isdigit] of one character: 0..9 and the superscripts 2, 3, 1. *)
Definition isdigit (c : ascii) : bool :=
  let n := N_of_ascii c in
  ((48 <=? n) && (n <=? 57) || (n =? 178) || (n =? 179) || (n =? 185))%N.

(** [s.split(sep)] for a one-character separator. *)
Fixpoint split (sep : ascii) (s : string) : list string :=
  match s with
  | EmptyString => [EmptyString]
  | String c s' =>
      if Ascii.eqb c sep then EmptyString :: split sep s'
      else match split sep s' with
           | l :: ls => String c l :: ls
           | [] => [String c EmptyString]
           end
  end.

(** [s.lstrip()]. *)
Fixpoint lstrip (s : string) : string :=
  match s with
  | EmptyString => EmptyString
  | String c s' => if isspace c then lstrip s' else s
  end.

(** [s.rstrip()]. *)
Fixpoint rstrip (s : string) : string :=
  match s with
  | EmptyString => EmptyString
  | String c s' =>
      match rstrip s' with
      | EmptyString => if isspace c then EmptyString else String c EmptyString
      | r => String c r
      end
  end.

(** [s.strip()]. *)
Definition strip (s : string) : string := lstrip (rstrip s).

(** [s.startswith(p)]. *)
Fixpoint startswith (s p : string) : bool :=
  match p, s with
  | EmptyString, _ => true
  | String a p', String b s' => Ascii.eqb a b && startswith s' p'
  | String _ _, EmptyString => false
  end.

(** The slice [s[n:]]. *)
Fixpoint slice_from (n : nat) (s : string) : string :=
  match n, s with
  | O, _ => s
  | S n', String _ s' => slice_from n' s'
  | S _, EmptyString => EmptyString
  end.

(** The subscript [s[n]] for [n >= 0]; out of range it raises. *)
Definition index (s : string) (n : nat) : result ascii :=
  match String.get n s with
  | Some c => Ok c
  | None => Raise IndexError
  end.

(** Truth value of a string: [not s]. *)
Definition is_empty (s : string) : bool :=
  match s with
  | EmptyString => true
  | String _ _ => false
  end.

End PyStr.

(** ** ProseMirror nodes

    A node is the dict [{"type": ..., "content": [...]}]; the constructor is
    the value of its ["type"] key. *)

Inductive node :=
  | Text (text : string)
  | Paragraph (content : list node)
  | Heading (level : Z) (content : list node)
  | ListItem (content : list node)
  | BulletList (content : list node)
  | Doc (content : list node).

#[export] Instance node_inhabited : Inhabited node := populate (Text "").

(** [n["content"].append(x)].  A text node has no ["content"]; the
    converter never appends to one (see [wf] below), and the model leaves it
    as it is. *)
Definition content_append (x : node) (n : node) : node :=
  match n with
  | Text t => Text t
  | Paragraph c => Paragraph (c ++ [x])
  | Heading l c => Heading l (c ++ [x])
  | ListItem c => ListItem (c ++ [x])
  | BulletList c => BulletList (c ++ [x])
  | Doc c => Doc (c ++ [x])
  end.

(** ** The converter's state *)

(** A location: the index of an object in the heap. *)
Abbreviation loc := nat.

Record state := mkState {
  heap : list node;
  doc_content : list loc;
  current_list : option loc;
  current_paragraph : option loc
}.

Definition init : state :=
  {| heap := []; doc_content := []; current_list := None;
     current_paragraph := None |}.

(** A new dict: it gets the next free location. *)
Definition alloc (n : node) (st : state) : loc * state :=
  (length (heap st),
   {| heap := heap st ++ [n]; doc_content := doc_content st;
      current_list := current_list st;
      current_paragraph := current_paragraph st |}).

(** [doc_content.append(o)] for the object at [l]. *)
Definition doc_append (l : loc) (st : state) : state :=
  {| heap := heap st; doc_content := doc_content st ++ [l];
     current_list := current_list st;
     current_paragraph := current_paragraph st |}.

(** [o["content"].append(x)] for the object at [l]: every reference to [l]
    sees the new content. *)
Definition obj_append (l : loc) (x : node) (st : state) : state :=
  {| heap := alter (content_append x) l (heap st);
     doc_content := doc_content st;
     current_list := current_list st;
     current_paragraph := current_paragraph st |}.

Definition set_current_list (o : option loc) (st : state) : state :=
  {| heap := heap st; doc_content := doc_content st; current_list := o;
     current_paragraph := current_paragraph st |}.

Definition set_current_paragraph (o : option loc) (st : state) : state :=
  {| heap := heap st; doc_content := doc_content st;
     current_list := current_list st; current_paragraph := o |}.

(** [if current_list: doc_content.append(current_list); current_list = None] *)
Definition flush_list (st : state) : state :=
  match current_list st with
  | Some l => set_current_list None (doc_append l st)
  | None => st
  end.

(** [if current_paragraph: doc_content.append(current_paragraph);
     current_paragraph = None] *)
Definition flush_paragraph (st : state) : state :=
  match current_paragraph st with
  | Some l => set_current_paragraph None (doc_append l st)
  | None => st
  end.

(** [if current_paragraph: doc_content.append(current_paragraph)], the open
    paragraph stays open. *)
Definition append_open_paragraph (st : state) : state :=
  match current_paragraph st with
  | Some l => doc_append l st
  | None => st
  end.

(** [if current_list: doc_content.append(current_list)], as after the loop. *)
Definition append_open_list (st : state) : state :=
  match current_list st with
  | Some l => doc_append l st
  | None => st
  end.

(** ** Values of a [Dict]

    The payloads of the API and of the events are JSON-like dicts. *)

Inductive value :=
  | VNone
  | VBool (b : bool)
  | VInt (z : Z)
  | VStr (s : string)
  | VList (l : list value)
  | VDict (d : gmap string value).

Abbreviation dict := (gmap string value).

(** [SliteAPI]: the branches of the converter's loop body, the converter,
    and the metadata stamp. *)

Module SliteAPI.

Import PyStr.

Definition newline : ascii := "010"%char.

(** Lines 164-174. *)
Definition blank_line (st : state) : state :=
  let st := flush_list st in
  let st := append_open_paragraph st in
  let (l, st) := alloc (Paragraph [Text ""]) st in
  doc_append l st.

(** Lines 177-191; [stripped] is [line.strip()]. *)
Definition bullet_line (stripped : string) (st : state) : state :=
  let text := slice_from 2 stripped in
  let (l, st) :=
    match current_list st with
    | None =>
        let (l, st) := alloc (BulletList []) st in
        (l, set_current_list (Some l) st)
    | Some l => (l, st)
    end in
  let list_item := ListItem [Paragraph [Text text]] in
  obj_append l list_item st.

(** Lines 195-206 and 210-221. *)
Definition heading_line (line : string) (st : state) : state :=
  let st := flush_list st in
  let st := flush_paragraph st in
  let (l, st) := alloc (Heading 2 [Text line]) st in
  doc_append l st.

(** Lines 225-237. *)
Definition regular_line (line : string) (st : state) : state :=
  let st := flush_list st in
  let (l, st) :=
    match current_paragraph st with
    | None =>
        let (l, st) := alloc (Paragraph []) st in
        (l, set_current_paragraph (Some l) st)
    | Some l => (l, st)
    end in
  obj_append l (Text line) st.

(** The condition of line 194. *)
Definition is_section_header (line : string) : bool :=
  startswith line "Meeting Notes:" || startswith line "Date:"
  || startswith line "Time:" || startswith line "Attendees:"
  || startswith line "Facilitator:".

(** The condition of line 209, [line[0].isdigit() and line[1] == '.']:
    the second subscript is evaluated only when the first test holds. *)
Definition is_numbered_section (line : string) : result bool :=
  let! c0 := index line 0 in
  if isdigit c0
  then let! c1 := index line 1 in Ok (Ascii.eqb c1 "."%char)
  else Ok false.

(** The body of the [for] loop, lines 161-237. *)
Definition process_line (st : state) (raw : string) : result state :=
  let line := rstrip raw in
  if is_empty line then Ok (blank_line st)
  else if startswith (strip line) "- " then Ok (bullet_line (strip line) st)
  else if is_section_header line then Ok (heading_line line st)
  else
    let! numbered := is_numbered_section line in
    if numbered then Ok (heading_line line st)
    else Ok (regular_line line st).

Fixpoint process_lines (st : state) (lines : list string) : result state :=
  match lines with
  | [] => Ok st
  | raw :: rest => let! st' := process_line st raw in process_lines st' rest
  end.

(** Lines 239-243. *)
Definition finish (st : state) : state :=
  append_open_paragraph (append_open_list st).

(** The dict that is returned, read as a tree: each element of
    [doc_content] is the object its location holds at the return. *)
Definition read_doc (st : state) : node :=
  Doc (map (fun l => heap st !!! l) (doc_content st)).

Definition _convert_to_prosemirror (content : string) : result node :=
  let! st := process_lines init (split newline content) in
  Ok (read_doc (finish st)).

(** The attribution written by [add_metadata]. *)
Definition updated_by : string := "Slite Integration Agent".

(** [d.update({"last_updated": now, "updated_by": ...})]. *)
Definition stamp (now : string) (d : dict) : dict :=
  <["updated_by" := VStr updated_by]> (<["last_updated" := VStr now]> d).

(** [v.update(...)] on a value: only a dict has the method. *)
Definition value_update (now : string) (v : value) : result value :=
  match v with
  | VDict d => Ok (VDict (stamp now d))
  | _ => Raise AttributeError
  end.

(** Lines 123-130.  [now] is what
    [datetime.now().strftime("%Y-%m-%d %H:%M:%S")] returns at the call.  The
    dict is updated in place and returned; the result is its new content. *)
Definition add_metadata (now : string) (data : dict) : result dict :=
  let data :=
    match data !! "metadata" with
    | None => <["metadata" := VDict ∅]> data
    | Some _ => data
    end in
  let! m := match data !! "metadata" with
            | Some v => Ok v
            | None => Raise KeyError
            end in
  let! m' := value_update now m in
  Ok (<["metadata" := m']> data).

End SliteAPI.

(** ** [SliteEventHandler]

    A handler is a callable supplied by the client.  The lists hold
    references to such objects, which the model tells apart by an
    identifier; what a call of one does is not part of the module, it is the
    argument [call] of the model.  A handler is given the payload, the very
    dict object that the caller of the trigger goes on to use, and it can
    reach the instance whose list is being iterated: so a call may write to
    the payload and may change the handler lists in place, and it returns or
    raises.  Of an exception [e] the [except Exception as e] clause tests
    [isinstance(e, Exception)] and evaluates [str(e)], which runs the
    [__str__] of the handler's own exception class and may raise in turn.

    The [for] loop of a trigger reads the list it iterates at every step
    (Python's list iterator keeps an index into the live list), so it need
    not end: the loop of the model is given the number of handler calls it
    may make.

    Outside the model: a handler that calls back into the module (a method
    of [SliteAPI] or a trigger), and one that assigns a new list to an
    attribute of the instance instead of changing the list in place. *)

Module SliteEventHandler.

(** [str(e)]: a string, or the exception that [__str__] raises. *)
Inductive str_outcome (E : Type) :=
  | Str (s : string)
  | StrRaises (e : E).

Arguments Str {E} s.
Arguments StrRaises {E} e.

Inductive exception := mkException {
  is_Exception : bool;
  str : str_outcome exception
}.

Inductive outcome :=
  | Returns
  | Raises (e : exception).

(** A reference to a callable. *)
Abbreviation handler := nat.

(** The instance: lines 26-29. *)
Record t := mk {
  folder_created_handlers : list handler;
  folder_updated_handlers : list handler;
  document_created_handlers : list handler;
  document_updated_handlers : list handler
}.

Definition __init__ : t :=
  {| folder_created_handlers := []; folder_updated_handlers := [];
     document_created_handlers := []; document_updated_handlers := [] |}.

Definition on_folder_created (self : t) (h : handler) : t :=
  {| folder_created_handlers := folder_created_handlers self ++ [h];
     folder_updated_handlers := folder_updated_handlers self;
     document_created_handlers := document_created_handlers self;
     document_updated_handlers := document_updated_handlers self |}.

Definition on_folder_updated (self : t) (h : handler) : t :=
  {| folder_created_handlers := folder_created_handlers self;
     folder_updated_handlers := folder_updated_handlers self ++ [h];
     document_created_handlers := document_created_handlers self;
     document_updated_handlers := document_updated_handlers self |}.

Definition on_document_created (self : t) (h : handler) : t :=
  {| folder_created_handlers := folder_created_handlers self;
     folder_updated_handlers := folder_updated_handlers self;
     document_created_handlers := document_created_handlers self ++ [h];
     document_updated_handlers := document_updated_handlers self |}.

Definition on_document_updated (self : t) (h : handler) : t :=
  {| folder_created_handlers := folder_created_handlers self;
     folder_updated_handlers := folder_updated_handlers self;
     document_created_handlers := document_created_handlers self;
     document_updated_handlers := document_updated_handlers self ++ [h] |}.

(** The two objects a handler can change while a trigger runs: the instance
    with its lists, and the payload. *)
Record store := mkStore {
  handlers : t;
  payload : dict
}.

(** What a trigger does to the world: the calls it makes, in order, each
    with the handler's identifier and the payload as it was when the handler
    was called, and the lines it sends to [logger.error]. *)
Record effects := mkEffects {
  called : list (nat * dict);
  logged : list string
}.

Definition no_effects : effects := {| called := []; logged := [] |}.

Definition record_call (h : handler) (data : dict) (fx : effects) : effects :=
  {| called := called fx ++ [(h, data)]; logged := logged fx |}.

Definition logger_error (line : string) (fx : effects) : effects :=
  {| called := called fx; logged := logged fx ++ [line] |}.

(** The four event kinds, to speak of the triggers together. *)
Inductive event_kind :=
  | folder_created
  | folder_updated
  | document_created
  | document_updated.

#[export] Instance event_kind_eq_dec : EqDecision event_kind.
Proof. solve_decision. Defined.

Definition handlers_of (k : event_kind) (self : t) : list handler :=
  match k with
  | folder_created => folder_created_handlers self
  | folder_updated => folder_updated_handlers self
  | document_created => document_created_handlers self
  | document_updated => document_updated_handlers self
  end.


Definition register (k : event_kind) (self : t) (h : handler) : t :=
  match k with
  | folder_created => on_folder_created self h
  | folder_updated => on_folder_updated self h
  | document_created => on_document_created self h
  | document_updated => on_document_updated self h
  end.


Section Triggers.

(** What calling a handler does: the store after the call, and whether the
    call returned or raised. *)
Variable call : handler -> store -> store * outcome.

(** The loop the four triggers share:
    [for handler in self.<list>: try: handler(data) except Exception as e:
     logger.error(prefix + str(e))].
    [list_of] is the attribute iterated, [i] the index of the iterator and
    [fuel] the number of handler calls the loop may still make.  The result
    holds the store as the loop leaves it and how the loop ended: returned,
    raised (the exception that leaves the loop), or [None] when it was
    stopped for lack of fuel. *)
Fixpoint run_handlers (fuel : nat) (prefix : string)
    (list_of : t -> list handler) (i : nat) (st : store) (fx : effects)
    : effects * store * option outcome :=
  match list_of (handlers st) !! i with
  | None => (fx, st, Some Returns)
  | Some h =>
      match fuel with
      | 0 => (fx, st, None)
      | S fuel =>
          let fx := record_call h (payload st) fx in
          match call h st with
          | (st, Returns) => run_handlers fuel prefix list_of (S i) st fx
          | (st, Raises e) =>
              if is_Exception e
              then match str e with
                   | Str s =>
                       run_handlers fuel prefix list_of (S i) st
                         (logger_error (prefix +:+ s) fx)
                   | StrRaises e' => (fx, st, Some (Raises e'))
                   end
              else (fx, st, Some (Raises e))
          end
      end
  end.

Definition trigger_folder_created (fuel : nat) (self : t)
    (folder_data : dict) (fx : effects) : effects * store * option outcome :=
  run_handlers fuel "Error in folder created handler: "
    folder_created_handlers 0
    {| handlers := self; payload := folder_data |} fx.

Definition trigger_folder_updated (fuel : nat) (self : t)
    (folder_data : dict) (fx : effects) : effects * store * option outcome :=
  run_handlers fuel "Error in folder updated handler: "
    folder_updated_handlers 0
    {| handlers := self; payload := folder_data |} fx.

Definition trigger_document_created (fuel : nat) (self : t)
    (document_data : dict) (fx : effects)
    : effects * store * option outcome :=
  run_handlers fuel "Error in document created handler: "
    document_created_handlers 0
    {| handlers := self; payload := document_data |} fx.

Definition trigger_document_updated (fuel : nat) (self : t)
    (document_data : dict) (fx : effects)
    : effects * store * option outcome :=
  run_handlers fuel "Error in document updated handler: "
    document_updated_handlers 0
    {| handlers := self; payload := document_data |} fx.

Definition trigger (k : event_kind) (fuel : nat) (self : t) (data : dict)
    (fx : effects) : effects * store * option outcome :=
  match k with
  | folder_created => trigger_folder_created fuel self data fx
  | folder_updated => trigger_folder_updated fuel self data fx
  | document_created => trigger_document_created fuel self data fx
  | document_updated => trigger_document_updated fuel self data fx
  end.

(** *** Notions used to state what a trigger does *)

(** The store after the handlers [hs] were called one after the other. *)
Fixpoint after (hs : list handler) (st : store) : store :=
  match hs with
  | [] => st
  | h :: rest => after rest (fst (call h st))
  end.

(** These calls: each handler with the payload as the handlers before it
    left it. *)
Fixpoint calls_of (hs : list handler) (st : store) : list (nat * dict) :=
  match hs with
  | [] => []
  | h :: rest => (h, payload st) :: calls_of rest (fst (call h st))
  end.

(** The lines these calls make the loop log: one for each call that raises
    an exception whose [str] returns. *)
Fixpoint error_lines (prefix : string) (hs : list handler) (st : store)
    : list string :=
  match hs with
  | [] => []
  | h :: rest =>
      match snd (call h st) with
      | Returns => []
      | Raises e =>
          match str e with
          | Str s => [prefix +:+ s]
          | StrRaises _ => []
          end
      end ++ error_lines prefix rest (fst (call h st))
  end.




End Triggers.

End SliteEventHandler.

(** ** Invariants of the converter's state *)

(** No bullet list in the heap is empty. *)
Definition bullets_nonempty (h : list node) : Prop :=
  forall (l : loc) (items : list node),
    h !! l = Some (BulletList items) -> items <> [].

(** The ["type"] key of a node. *)
Definition node_type (n : node) : string :=
  match n with
  | Text _ => "text"
  | Paragraph _ => "paragraph"
  | Heading _ _ => "heading"
  | ListItem _ => "listItem"
  | BulletList _ => "bulletList"
  | Doc _ => "doc"
  end.

(** Every reference of the state is to an object of the heap, the open list
    is a bullet list and the open paragraph a paragraph. *)
Definition wf (st : state) : Prop :=
  Forall (fun l : loc => l < length (heap st)) (doc_content st)
  /\ (forall l : loc, current_list st = Some l ->
       node_type <$> heap st !! l = Some "bulletList")
  /\ (forall l : loc, current_paragraph st = Some l ->
       node_type <$> heap st !! l = Some "paragraph").

(** ** Notions used to state the metadata stamp and the triggers *)

(** [isinstance(v, dict)]. *)
Definition is_dict (v : value) : bool :=
  match v with
  | VDict _ => true
  | _ => false
  end.

(** The mapping under ["metadata"] before the call, empty when there is
    none. *)
Definition old_metadata (data : dict) : dict :=
  match data !! "metadata" with
  | Some (VDict m) => m
  | _ => ∅
  end.

Definition quiet_handler : SliteEventHandler.handler := 3.

Definition sample_call (h : SliteEventHandler.handler)
    (st : SliteEventHandler.store)
    : SliteEventHandler.store * SliteEventHandler.outcome :=
  match h with
  | 1 =>
      (st, SliteEventHandler.Raises
             {| SliteEventHandler.is_Exception := true;
                SliteEventHandler.str := SliteEventHandler.Str "boom" |})
  | 2 =>
      (st, SliteEventHandler.Raises
             {| SliteEventHandler.is_Exception := false;
                SliteEventHandler.str := SliteEventHandler.Str "1" |})
  | 4 =>
      (st, SliteEventHandler.Raises
             {| SliteEventHandler.is_Exception := true;
                SliteEventHandler.str :=
                  SliteEventHandler.StrRaises
                    {| SliteEventHandler.is_Exception := true;
                       SliteEventHandler.str :=
                         SliteEventHandler.Str
                           "__str__ returned non-string (type NoneType)"
                    |} |})
  | 5 =>
      ({| SliteEventHandler.handlers := SliteEventHandler.handlers st;
          SliteEventHandler.payload :=
            <["seen" := VBool true]> (SliteEventHandler.payload st) |},
       SliteEventHandler.Returns)
  | 6 =>
      ({| SliteEventHandler.handlers :=
            SliteEventHandler.on_folder_created
              (SliteEventHandler.handlers st) 6;
          SliteEventHandler.payload := SliteEventHandler.payload st |},
       SliteEventHandler.Returns)
  | _ => (st, SliteEventHandler.Returns)
  end.

(** The text of a Python literal with [\n] in it is written with [nl]. *)
Definition nl : string := String SliteAPI.newline EmptyString.

(** ** Notions used to state further properties of the converter *)

Definition is_text (n : node) : bool :=
  match n with
  | Text _ => true
  | _ => false
  end.

(** A list item as line 184 builds it: one paragraph with one text leaf. *)
Definition valid_item (n : node) : bool :=
  match n with
  | ListItem [Paragraph [Text _]] => true
  | _ => false
  end.

Definition nonempty {A : Type} (l : list A) : bool :=
  match l with
  | [] => false
  | _ :: _ => true
  end.

(** The blocks of a document: a paragraph of one or more text leaves, a
    level-2 heading with one text leaf, a bullet list of one or more list
    items. *)
Definition valid_block (n : node) : bool :=
  match n with
  | Paragraph c => nonempty c && forallb is_text c
  | Heading level [Text _] => (level =? 2)%Z
  | BulletList items => nonempty items && forallb valid_item items
  | _ => false
  end.

(** The text leaves of a node, from left to right. *)
Fixpoint texts (n : node) : list string :=
  match n with
  | Text t => [t]
  | Paragraph c | Heading _ c | ListItem c | BulletList c | Doc c =>
      flat_map texts c
  end.

(** The text a line of the input puts into the document: the bullet's text
    for a bullet line, the trimmed line otherwise (the empty string for a
    blank line). *)
Definition line_text (raw : string) : string :=
  let line := PyStr.rstrip raw in
  if PyStr.startswith (PyStr.strip line) "- "
  then PyStr.slice_from 2 (PyStr.strip line)
  else line.

(** Every object of the heap is referenced: it is in the document or it is
    the open list or the open paragraph. *)
Definition all_referenced (st : state) : Prop :=
  forall l : loc, l < length (heap st) ->
    In l (doc_content st) \/ current_list st = Some l
    \/ current_paragraph st = Some l.

(** The text leaves of all the objects of a heap. *)
Definition heap_texts (h : list node) : list string := flat_map texts h.

(** [c in s] for a character [c]. *)
Fixpoint contains (c : ascii) (s : string) : bool :=
  match s with
  | EmptyString => false
  | String a s' => Ascii.eqb a c || contains c s'
  end.

(** ** The converter's document as the dict it is

    [_convert_to_prosemirror] returns nested dicts and lists; [to_value]
    writes a node out as that value, with the keys of lines 140-143,
    170-173, 180-190, 202-206 and 245-248. *)

Fixpoint to_value (n : node) : value :=
  match n with
  | Text t =>
      VDict (<["type" := VStr "text"]> (<["text" := VStr t]> ∅))
  | Paragraph c =>
      VDict (<["type" := VStr "paragraph"]>
               (<["content" := VList (map to_value c)]> ∅))
  | Heading level c =>
      VDict (<["type" := VStr "heading"]>
               (<["attrs" := VDict (<["level" := VInt level]> ∅)]>
                  (<["content" := VList (map to_value c)]> ∅)))
  | ListItem c =>
      VDict (<["type" := VStr "listItem"]>
               (<["content" := VList (map to_value c)]> ∅))
  | BulletList c =>
      VDict (<["type" := VStr "bulletList"]>
               (<["content" := VList (map to_value c)]> ∅))
  | Doc c =>
      VDict (<["type" := VStr "doc"]>
               (<["content" := VList (map to_value c)]> ∅))
  end.

(** ** The calls to the service

    The methods of [SliteAPI] from line 250 on send one HTTP request through
    [requests] and turn the answer into a return value, an exception, log
    lines and an event.  [requests] is not part of the module: what a call
    of it does is an argument [net] of the model, a function from the
    request to its outcome.  The methods for folders and documents call the
    handlers of the instance: what these do is the argument [call], and
    [fuel] is the number of handler calls the trigger may make.  The model
    follows one call of a method; the handler lists as the handlers left
    them, which matter to the calls that follow, are not part of its
    result. *)

Module SliteRequests.

(** *** Exceptions *)

(** The classes the [except] clauses tell apart, and the built-in errors
    the modelled code can raise itself. *)
Inductive exc_class :=
  | CException
  | CRequestException
  | CBuiltin (e : exn)
  | CTypeError
  | COtherException
  | CBaseException.

(** [isinstance(e, Exception)]: everything but a bare [BaseException]
    ([SystemExit], [KeyboardInterrupt], ...). *)
Definition is_Exception (c : exc_class) : bool :=
  match c with
  | CBaseException => false
  | _ => true
  end.

(** [isinstance(e, requests.exceptions.RequestException)]; [HTTPError],
    [ConnectionError], [Timeout] are subclasses. *)
Definition is_RequestException (c : exc_class) : bool :=
  match c with
  | CRequestException => true
  | _ => false
  end.

(** An exception: its class and [str(e)]. *)
Record pyexc := mkExc {
  cls : exc_class;
  msg : string
}.

(** The exception of a converter call.  Only [IndexError] arises there, from
    a string subscript; the other two built-in errors of the model are not
    raised by the calls of this section, their message is left empty. *)
Definition of_exn (e : exn) : pyexc :=
  {| cls := CBuiltin e;
     msg := match e with
            | IndexError => "string index out of range"
            | KeyError | AttributeError => ""
            end |}.

(** [type(v).__name__]. *)
Definition type_name (v : value) : string :=
  match v with
  | VNone => "NoneType"
  | VBool _ => "bool"
  | VInt _ => "int"
  | VStr _ => "str"
  | VList _ => "list"
  | VDict _ => "dict"
  end.

(** [v.get] on a value that is not a dict. *)
Definition no_attribute (v : value) (attr : string) : pyexc :=
  {| cls := CBuiltin AttributeError;
     msg := "'" +:+ type_name v +:+ "' object has no attribute '"
            +:+ attr +:+ "'" |}.

(** [v["metadata"] = ...] on a value that is not a dict. *)
Definition no_item_assignment (v : value) : pyexc :=
  {| cls := CTypeError;
     msg := match v with
            | VList _ => "list indices must be integers or slices, not str"
            | _ => "'" +:+ type_name v
                   +:+ "' object does not support item assignment"
            end |}.

(** *** Requests and answers *)

Inductive http_method := GET | POST | PUT | PATCH | DELETE.

(** The arguments of a call of [requests]: the function called, the
    endpoint, [headers=], [params=] and [json=]. *)
Record request := mkRequest {
  method : http_method;
  url : string;
  req_headers : list (string * string);
  params : list (string * string);
  json_body : option dict
}.

(** What [response.json()] does. *)
Inductive json_outcome :=
  | JsonValue (v : value)
  | JsonRaises (e : pyexc).

(** The response, as far as the module reads it: [status_code], [text],
    [json()], and the message of the [HTTPError] that [raise_for_status()]
    builds from the status, the reason and the URL. *)
Record response := mkResponse {
  status_code : Z;
  text : string;
  json : json_outcome;
  http_error_msg : string
}.

(** What a call of [requests.get], [post], [put], [patch] or [delete]
    does: it returns a response or raises. *)
Inductive http_outcome :=
  | Answers (r : response)
  | Fails (e : pyexc).

(** [response.raise_for_status()]: an [HTTPError] for a status from 400 to
    599, nothing otherwise. *)
Definition raise_for_status (r : response) : option pyexc :=
  if ((400 <=? status_code r) && (status_code r <? 600))%Z
  then Some {| cls := CRequestException; msg := http_error_msg r |}
  else None.

(** *** The world of a call *)

(** The lines of [logger.debug] and [logger.info].  The dict that line 408
    formats is kept as it is. *)
Inductive log_note :=
  | Debug (line : string)
  | DebugContent (content : value)
  | Info (line : string).

(** What a call has done so far: the handler calls and the lines of
    [logger.error] (in [fx], shared with the triggers), the requests sent,
    and the other log lines. *)
Record world := mkWorld {
  fx : SliteEventHandler.effects;
  sent : list request;
  notes : list log_note
}.

Definition quiet_world : world :=
  {| fx := SliteEventHandler.no_effects; sent := []; notes := [] |}.

(** A call ends by returning a value or by raising: an exception of the
    module or of [requests], whose [str] returns, or one that comes out of a
    trigger, raised by a handler or by the [__str__] of a handler's
    exception.  A call whose trigger was stopped for lack of fuel is
    [Unfinished]. *)
Inductive outcome (A : Type) :=
  | Returned (a : A)
  | Raised (e : pyexc)
  | Escaped (e : SliteEventHandler.exception)
  | Unfinished.

Arguments Returned {A} a.
Arguments Raised {A} e.
Arguments Escaped {A} e.
Arguments Unfinished {A}.

(** A computation in a world. *)
Definition M (A : Type) : Type := world -> world * outcome A.

Definition ret {A : Type} (a : A) : M A := fun w => (w, Returned a).

Definition throw {A : Type} (e : pyexc) : M A := fun w => (w, Raised e).

Definition mbind {A B : Type} (m : M A) (k : A -> M B) : M B :=
  fun w =>
    match m w with
    | (w', Returned a) => k a w'
    | (w', Raised e) => (w', Raised e)
    | (w', Escaped e) => (w', Escaped e)
    | (w', Unfinished) => (w', Unfinished)
    end.

Notation "'let*' x ':=' c 'in' k" := (mbind c (fun x => k))
  (at level 10, x name, c at level 100, k at level 200).

Notation "c ';;' k" := (mbind c (fun _ => k))
  (at level 100, k at level 200, right associativity).

(** [try: body except C as e: handler], where [catches] is
    [isinstance(e, C)]. *)
Definition try_except {A : Type} (body : M A) (catches : exc_class -> bool)
    (handler : pyexc -> M A) : M A :=
  fun w =>
    match body w with
    | (w', Raised e) => if catches (cls e) then handler e w' else (w', Raised e)
    | r => r
    end.

Definition logger_error (line : string) : M unit :=
  fun w =>
    ({| fx := SliteEventHandler.logger_error line (fx w); sent := sent w;
        notes := notes w |}, Returned tt).

Definition logger_note (n : log_note) : M unit :=
  fun w =>
    ({| fx := fx w; sent := sent w; notes := notes w ++ [n] |}, Returned tt).

(** The call of [requests]: the request is sent, and [net] says what comes
    back. *)
Definition send (net : request -> http_outcome) (rq : request) : M response :=
  fun w =>
    let w' := {| fx := fx w; sent := sent w ++ [rq]; notes := notes w |} in
    match net rq with
    | Answers r => (w', Returned r)
    | Fails e => (w', Raised e)
    end.

(** [response.json()]. *)
Definition response_json (r : response) : M value :=
  match json r with
  | JsonValue v => ret v
  | JsonRaises e => throw e
  end.

(** The converter, called from a method. *)
Definition convert (content : string) : M node :=
  match SliteAPI._convert_to_prosemirror content with
  | Ok d => ret d
  | Raise e => throw (of_exn e)
  end.

(** A trigger, called from a method.  The dict handed to the trigger is the
    object the method goes on to return: [fire] gives it back as the
    handlers left it.  An exception that leaves the trigger leaves [fire]. *)
Definition fire
    (trigger : SliteEventHandler.effects ->
               SliteEventHandler.effects * SliteEventHandler.store
               * option SliteEventHandler.outcome)
    : M dict :=
  fun w =>
    match trigger (fx w) with
    | (fx', st, Some SliteEventHandler.Returns) =>
        ({| fx := fx'; sent := sent w; notes := notes w |},
         Returned (SliteEventHandler.payload st))
    | (fx', st, Some (SliteEventHandler.Raises e)) =>
        ({| fx := fx'; sent := sent w; notes := notes w |}, Escaped e)
    | (fx', st, None) =>
        ({| fx := fx'; sent := sent w; notes := notes w |}, Unfinished)
    end.

(** *** The instance: lines 101-113 *)

Record api := mkApi {
  api_key : string;
  events : SliteEventHandler.t
}.

Definition base_url : string := "https://api.slite.com".

Definition headers (self : api) : list (string * string) :=
  [("Authorization", "Bearer " +:+ api_key self);
   ("Content-Type", "application/json")].

(** [response.status_code in [200, 201]]. *)
Definition created_or_ok (r : response) : bool :=
  ((status_code r =? 200) || (status_code r =? 201))%Z.

(** [Exception(m)]. *)
Definition exception (m : string) : pyexc := {| cls := CException; msg := m |}.

(** *** Notes: lines 387-552 *)

(** The [except requests.exceptions.RequestException] clause the methods
    for notes share, with the words of its log line. *)
Definition network_error {A : Type} (what : string) (e : pyexc) : M A :=
  logger_error (what +:+ msg e) ;;
  throw (exception ("Network error: " +:+ msg e)).

Definition create_note (net : request -> http_outcome) (self : api)
    (title content : string) : M value :=
  try_except
    (let endpoint := base_url +:+ "/v1/notes" in
     let* content := convert content in
     let data : dict :=
       <["title" := VStr title]> (<["content" := to_value content]> ∅) in
     logger_note (Debug ("Creating note with title: " +:+ title)) ;;
     logger_note (DebugContent (to_value content)) ;;
     let* response :=
       send net {| method := POST; url := endpoint;
                   req_headers := headers self; params := [];
                   json_body := Some data |} in
     if created_or_ok response then
       logger_note (Info "Successfully created note with content") ;;
       response_json response
     else if (status_code response =? 429)%Z then
       throw (exception "Rate limit exceeded")
     else if (status_code response =? 401)%Z then
       throw (exception "Invalid API key")
     else
       logger_error ("Error creating note: " +:+ text response) ;;
       throw (exception ("Error creating note: " +:+ text response)))
    is_RequestException
    (network_error "Error creating note: ").

Definition update_note (net : request -> http_outcome) (self : api)
    (note_id title content : string) : M value :=
  try_except
    (let endpoint := base_url +:+ "/v1/notes/" +:+ note_id in
     let* content := convert content in
     let data : dict :=
       <["title" := VStr title]> (<["content" := to_value content]> ∅) in
     logger_note (Debug ("Updating note " +:+ note_id)) ;;
     let* response :=
       send net {| method := PATCH; url := endpoint;
                   req_headers := headers self; params := [];
                   json_body := Some data |} in
     if (status_code response =? 200)%Z then
       logger_note (Info ("Successfully updated note " +:+ note_id)) ;;
       response_json response
     else if (status_code response =? 429)%Z then
       throw (exception "Rate limit exceeded")
     else if (status_code response =? 401)%Z then
       throw (exception "Invalid API key")
     else if (status_code response =? 404)%Z then
       throw (exception ("Note " +:+ note_id +:+ " not found"))
     else
       throw (exception ("Error updating note: " +:+ text response)))
    is_RequestException
    (network_error "Error updating note: ").

Definition get_note (net : request -> http_outcome) (self : api)
    (note_id : string) : M value :=
  try_except
    (let endpoint := base_url +:+ "/v1/notes/" +:+ note_id in
     let* response :=
       send net {| method := GET; url := endpoint;
                   req_headers := headers self; params := [];
                   json_body := None |} in
     if (status_code response =? 200)%Z then
       response_json response
     else if (status_code response =? 429)%Z then
       throw (exception "Rate limit exceeded")
     else if (status_code response =? 401)%Z then
       throw (exception "Invalid API key")
     else if (status_code response =? 404)%Z then
       throw (exception ("Note " +:+ note_id +:+ " not found"))
     else
       throw (exception ("Error getting note: " +:+ text response)))
    is_RequestException
    (network_error "Error getting note: ").

Definition search_notes (net : request -> http_outcome) (self : api)
    (query : string) : M value :=
  try_except
    (let endpoint := base_url +:+ "/v1/notes/search" in
     let* response :=
       send net {| method := GET; url := endpoint;
                   req_headers := headers self;
                   params := [("query", query)];
                   json_body := None |} in
     if (status_code response =? 200)%Z then
       response_json response
     else if (status_code response =? 429)%Z then
       throw (exception "Rate limit exceeded")
     else if (status_code response =? 401)%Z then
       throw (exception "Invalid API key")
     else
       throw (exception ("Error searching notes: " +:+ text response)))
    is_RequestException
    (network_error "Error searching notes: ").

(** [delete_note], [delete_folder] and [delete_document] (lines 527-552,
    611-636 and 683-708) are one text with three nouns. *)
Definition delete (kind lower : string) (net : request -> http_outcome)
    (self : api) (id : string) : M value :=
  try_except
    (let endpoint := base_url +:+ "/v1/notes/" +:+ id in
     let* response :=
       send net {| method := DELETE; url := endpoint;
                   req_headers := headers self; params := [];
                   json_body := None |} in
     if (status_code response =? 204)%Z then
       ret (VDict (<["status" := VStr "success"]>
                     (<["message" :=
                          VStr (kind +:+ " " +:+ id
                                +:+ " deleted successfully")]> ∅)))
     else if (status_code response =? 429)%Z then
       throw (exception "Rate limit exceeded")
     else if (status_code response =? 401)%Z then
       throw (exception "Invalid API key")
     else if (status_code response =? 404)%Z then
       throw (exception (kind +:+ " " +:+ id +:+ " not found"))
     else
       throw (exception ("Error deleting " +:+ lower +:+ ": "
                         +:+ text response)))
    is_RequestException
    (network_error ("Error deleting " +:+ lower +:+ ": ")).

Definition delete_note := delete "Note" "note".
Definition delete_folder := delete "Folder" "folder".
Definition delete_document := delete "Document" "document".

(** *** Folders and documents: lines 250-348, 554-609 and 638-681 *)

(** What calling a handler does; see [SliteEventHandler]. *)
Definition handler_call : Type :=
  SliteEventHandler.handler -> SliteEventHandler.store ->
  SliteEventHandler.store * SliteEventHandler.outcome.

(** [add_metadata], called from a method. *)
Definition add_metadata (now : string) (data : dict) : M dict :=
  match SliteAPI.add_metadata now data with
  | Ok d => ret d
  | Raise e => throw (of_exn e)
  end.

(** [v.get(key)]: the value or [None] for a dict, no such method
    otherwise. *)
Definition value_get (v : value) (key : string) : M value :=
  match v with
  | VDict d => ret (default VNone (d !! key))
  | _ => throw (no_attribute v "get")
  end.

(** [v[key] = x]; the result is the dict after the assignment. *)
Definition value_set (v : value) (key : string) (x : value) : M dict :=
  match v with
  | VDict d => ret (<[key := x]> d)
  | _ => throw (no_item_assignment v)
  end.

(** The [else] branch of the four methods: the error line, then
    [response.raise_for_status()]; when that does not raise the method ends
    without a [return]. *)
Definition report_failure (what : string) (r : response) : M value :=
  logger_error (what +:+ text r) ;;
  match raise_for_status r with
  | Some e => throw e
  | None => ret VNone
  end.

(** The [except Exception as e] clause of the four methods: the error line,
    then [raise]. *)
Definition log_and_reraise {A : Type} (what : string) (e : pyexc) : M A :=
  logger_error (what +:+ msg e) ;;
  throw e.

(** The same clause for an exception that came out of the trigger: when
    [str(e)] raises, nothing is logged and the exception of [str] leaves
    the method in place of [e]. *)
Definition log_and_reraise_escaped {A : Type} (what : string)
    (e : SliteEventHandler.exception) : M A :=
  match SliteEventHandler.str e with
  | SliteEventHandler.Str s =>
      logger_error (what +:+ s) ;;
      fun w => (w, Escaped e)
  | SliteEventHandler.StrRaises e' => fun w => (w, Escaped e')
  end.

(** [try: body except Exception as e: logger.error(what + str(e)); raise]. *)
Definition try_except_Exception {A : Type} (body : M A) (what : string)
    : M A :=
  fun w =>
    match body w with
    | (w', Raised e) =>
        if is_Exception (cls e) then log_and_reraise what e w'
        else (w', Raised e)
    | (w', Escaped e) =>
        if SliteEventHandler.is_Exception e
        then log_and_reraise_escaped what e w'
        else (w', Escaped e)
    | r => r
    end.

(** The f-string of lines 263-269 and 568-574. *)
Definition folder_markdown (name description : string) : string :=
  "# " +:+ name +:+ nl +:+ nl +:+ description +:+ nl +:+ nl
  +:+ "---" +:+ nl +:+ "This is a folder for organizing content." +:+ nl.

(** [create_folder] and [update_folder] are one text; they differ in the
    function of [requests], the endpoint, the trigger and one word of the
    log lines. *)
Definition folder_call (what : string) (meth : http_method)
    (endpoint : string)
    (trigger : SliteEventHandler.t -> dict -> SliteEventHandler.effects ->
               SliteEventHandler.effects * SliteEventHandler.store
               * option SliteEventHandler.outcome)
    (now : string) (net : request -> http_outcome) (self : api)
    (name description : string) : M value :=
  try_except_Exception
    (let markdown_content := folder_markdown name description in
     let data : dict :=
       <["title" := VStr name]>
         (<["markdown" := VStr markdown_content]>
            (<["isFolder" := VBool true]> ∅)) in
     let* data := add_metadata now data in
     let* response :=
       send net {| method := meth; url := endpoint;
                   req_headers := headers self; params := [];
                   json_body := Some data |} in
     if created_or_ok response then
       let* result := response_json response in
       let* id := value_get result "id" in
       let* url := value_get result "url" in
       let folder_data : dict :=
         <["id" := id]>
           (<["name" := VStr name]>
              (<["description" := VStr description]>
                 (<["url" := url]>
                    (<["metadata" := default (VDict ∅) (data !! "metadata")]>
                       ∅)))) in
       let* folder_data := fire (trigger (events self) folder_data) in
       ret (VDict folder_data)
     else
       report_failure what response)
    what.

Definition create_folder (call : handler_call) (fuel : nat) (now : string)
    (net : request -> http_outcome) (self : api) (name description : string)
    : M value :=
  folder_call "Error creating folder: " POST (base_url +:+ "/v1/notes")
    (SliteEventHandler.trigger_folder_created call fuel) now net self name
    description.

Definition update_folder (call : handler_call) (fuel : nat) (now : string)
    (net : request -> http_outcome) (self : api)
    (folder_id name description : string) : M value :=
  folder_call "Error updating folder: " PUT
    (base_url +:+ "/v1/notes/" +:+ folder_id)
    (SliteEventHandler.trigger_folder_updated call fuel) now net self name
    description.

(** [if folder_id:] for an [Optional[str]]. *)
Definition given (folder_id : option string) : option string :=
  match folder_id with
  | Some EmptyString | None => None
  | Some id => Some id
  end.

(** [create_document] and [update_document], likewise. *)
Definition document_call (what : string) (meth : http_method)
    (endpoint : string)
    (trigger : SliteEventHandler.t -> dict -> SliteEventHandler.effects ->
               SliteEventHandler.effects * SliteEventHandler.store
               * option SliteEventHandler.outcome)
    (now : string) (net : request -> http_outcome) (self : api)
    (title markdown_content : string) (folder_id : option string)
    : M value :=
  try_except_Exception
    (let data : dict :=
       <["title" := VStr title]> (<["markdown" := VStr markdown_content]> ∅) in
     let data : dict :=
       match given folder_id with
       | Some id => <["parentNoteId" := VStr id]> data
       | None => data
       end in
     let* data := add_metadata now data in
     let* response :=
       send net {| method := meth; url := endpoint;
                   req_headers := headers self; params := [];
                   json_body := Some data |} in
     if created_or_ok response then
       let* result := response_json response in
       let* result :=
         value_set result "metadata"
           (default (VDict ∅) (data !! "metadata")) in
       let* result := fire (trigger (events self) result) in
       ret (VDict result)
     else
       report_failure what response)
    what.

Definition create_document (call : handler_call) (fuel : nat) (now : string)
    (net : request -> http_outcome) (self : api)
    (title markdown_content : string) (folder_id : option string)
    : M value :=
  document_call "Error creating document: " POST (base_url +:+ "/v1/notes")
    (SliteEventHandler.trigger_document_created call fuel) now net self title
    markdown_content folder_id.

Definition update_document (call : handler_call) (fuel : nat) (now : string)
    (net : request -> http_outcome) (self : api)
    (doc_id title markdown_content : string) (folder_id : option string)
    : M value :=
  document_call "Error updating document: " PUT
    (base_url +:+ "/v1/notes/" +:+ doc_id)
    (SliteEventHandler.trigger_document_updated call fuel) now net self title
    markdown_content folder_id.

End SliteRequests.

(** ** The calls, to speak of them together *)

(** The seven methods for notes and deletions. *)
Inductive note_call :=
  | CreateNote (title content : string)
  | UpdateNote (note_id title content : string)
  | GetNote (note_id : string)
  | SearchNotes (query : string)
  | DeleteNote (note_id : string)
  | DeleteFolder (folder_id : string)
  | DeleteDocument (doc_id : string).

Definition run_note_call (net : SliteRequests.request -> SliteRequests.http_outcome)
    (self : SliteRequests.api) (c : note_call)
    : SliteRequests.M value :=
  match c with
  | CreateNote title content => SliteRequests.create_note net self title content
  | UpdateNote note_id title content =>
      SliteRequests.update_note net self note_id title content
  | GetNote note_id => SliteRequests.get_note net self note_id
  | SearchNotes query => SliteRequests.search_notes net self query
  | DeleteNote note_id => SliteRequests.delete_note net self note_id
  | DeleteFolder folder_id => SliteRequests.delete_folder net self folder_id
  | DeleteDocument doc_id => SliteRequests.delete_document net self doc_id
  end.

(** The status a call takes for success. *)
Definition succeeds (c : note_call) (status : Z) : bool :=
  match c with
  | CreateNote _ _ => (status =? 200)%Z || (status =? 201)%Z
  | UpdateNote _ _ _ | GetNote _ | SearchNotes _ => (status =? 200)%Z
  | DeleteNote _ | DeleteFolder _ | DeleteDocument _ => (status =? 204)%Z
  end.

(** The text a call hands to the converter, if it has one. *)
Definition call_content (c : note_call) : option string :=
  match c with
  | CreateNote _ content | UpdateNote _ _ content => Some content
  | _ => None
  end.

(** The words a call puts before the error it logs. *)
Definition call_error_prefix (c : note_call) : string :=
  match c with
  | CreateNote _ _ => "Error creating note: "
  | UpdateNote _ _ _ => "Error updating note: "
  | GetNote _ => "Error getting note: "
  | SearchNotes _ => "Error searching notes: "
  | DeleteNote _ => "Error deleting note: "
  | DeleteFolder _ => "Error deleting folder: "
  | DeleteDocument _ => "Error deleting document: "
  end.

(** The four methods for folders and documents. *)
Inductive entity_call :=
  | CreateFolder (name description : string)
  | UpdateFolder (folder_id name description : string)
  | CreateDocument (title markdown_content : string)
      (folder_id : option string)
  | UpdateDocument (doc_id title markdown_content : string)
      (folder_id : option string).

Definition run_entity_call (call : SliteRequests.handler_call) (fuel : nat)
    (now : string)
    (net : SliteRequests.request -> SliteRequests.http_outcome)
    (self : SliteRequests.api) (c : entity_call) : SliteRequests.M value :=
  match c with
  | CreateFolder name description =>
      SliteRequests.create_folder call fuel now net self name description
  | UpdateFolder folder_id name description =>
      SliteRequests.update_folder call fuel now net self folder_id name
        description
  | CreateDocument title markdown_content folder_id =>
      SliteRequests.create_document call fuel now net self title
        markdown_content folder_id
  | UpdateDocument doc_id title markdown_content folder_id =>
      SliteRequests.update_document call fuel now net self doc_id title
        markdown_content folder_id
  end.

(** The event a call triggers. *)
Definition event_of (c : entity_call) : SliteEventHandler.event_kind :=
  match c with
  | CreateFolder _ _ => SliteEventHandler.folder_created
  | UpdateFolder _ _ _ => SliteEventHandler.folder_updated
  | CreateDocument _ _ _ => SliteEventHandler.document_created
  | UpdateDocument _ _ _ _ => SliteEventHandler.document_updated
  end.

(** The dict a method for folders or documents sends as the JSON body,
    before the stamp. *)
Definition entity_data (c : entity_call) : dict :=
  match c with
  | CreateFolder name description | UpdateFolder _ name description =>
      <["title" := VStr name]>
        (<["markdown" :=
             VStr (SliteRequests.folder_markdown name description)]>
           (<["isFolder" := VBool true]> ∅))
  | CreateDocument title markdown_content folder_id
  | UpdateDocument _ title markdown_content folder_id =>
      match SliteRequests.given folder_id with
      | Some id =>
          <["parentNoteId" := VStr id]>
            (<["title" := VStr title]>
               (<["markdown" := VStr markdown_content]> ∅))
      | None =>
          <["title" := VStr title]>
            (<["markdown" := VStr markdown_content]> ∅)
      end
  end.

(** The request of a method for folders or documents. *)
Definition entity_request (now : string) (self : SliteRequests.api)
    (c : entity_call) : SliteRequests.request :=
  {| SliteRequests.method :=
       match c with
       | CreateFolder _ _ | CreateDocument _ _ _ => SliteRequests.POST
       | UpdateFolder _ _ _ | UpdateDocument _ _ _ _ => SliteRequests.PUT
       end;
     SliteRequests.url :=
       match c with
       | CreateFolder _ _ | CreateDocument _ _ _ =>
           SliteRequests.base_url +:+ "/v1/notes"
       | UpdateFolder id _ _ | UpdateDocument id _ _ _ =>
           SliteRequests.base_url +:+ "/v1/notes/" +:+ id
       end;
     SliteRequests.req_headers := SliteRequests.headers self;
     SliteRequests.params := [];
     SliteRequests.json_body :=
       Some (<["metadata" := VDict (SliteAPI.stamp now ∅)]> (entity_data c)) |}.

(** The words a method for folders or documents puts before the errors it
    logs. *)
Definition entity_error_prefix (c : entity_call) : string :=
  match c with
  | CreateFolder _ _ => "Error creating folder: "
  | UpdateFolder _ _ _ => "Error updating folder: "
  | CreateDocument _ _ _ => "Error creating document: "
  | UpdateDocument _ _ _ _ => "Error updating document: "
  end.

(** What the trigger is given when the service answered 200 or 201 with
    the JSON dict [result]. *)
Definition entity_payload (now : string) (c : entity_call) (result : dict)
    : dict :=
  match c with
  | CreateFolder name description | UpdateFolder _ name description =>
      <["id" := default VNone (result !! "id")]>
        (<["name" := VStr name]>
           (<["description" := VStr description]>
              (<["url" := default VNone (result !! "url")]>
                 (<["metadata" := VDict (SliteAPI.stamp now ∅)]> ∅))))
  | CreateDocument _ _ _ | UpdateDocument _ _ _ _ =>
      <["metadata" := VDict (SliteAPI.stamp now ∅)]> result
  end.

(** The exception of a method for folders or documents whose answer is
    JSON but not a dict: [result.get] fails for a folder,
    [result["metadata"] = ...] for a document. *)
Definition not_a_dict (c : entity_call) (v : value) : SliteRequests.pyexc :=
  match c with
  | CreateFolder _ _ | UpdateFolder _ _ _ => SliteRequests.no_attribute v "get"
  | CreateDocument _ _ _ | UpdateDocument _ _ _ _ =>
      SliteRequests.no_item_assignment v
  end.

From stdpp Require Import pretty.

(** ** [format_meeting_notes_markdown]: lines 350-385

    The notes are a dict of JSON-like values, which the method reads with
    [get], iterates over and formats into f-strings.  What [str] makes of a
    list or a dict (the [repr] of the elements, a dict in the order of
    insertion) and the order in which a dict yields its keys are not kept by
    the model of dicts: they are the parameters [container_str] and
    [keys_of].  The numbers of [value] are integers. *)

Module MeetingNotes.

Import SliteRequests.

(** The formatter calls no handler: of the endings of a call only the
    first two arise here. *)
Definition obind {A B : Type} (o : outcome A) (k : A -> outcome B)
    : outcome B :=
  match o with
  | Returned a => k a
  | Raised e => Raised e
  | Escaped e => Escaped e
  | Unfinished => Unfinished
  end.

Notation "'let?' x ':=' c 'in' k" := (obind c (fun x => k))
  (at level 10, x name, c at level 100, k at level 200).

(** [sep.join(ss)] for strings. *)
Fixpoint join (sep : string) (ss : list string) : string :=
  match ss with
  | [] => EmptyString
  | [s] => s
  | s :: rest => s +:+ sep +:+ join sep rest
  end.

(** [v.get(key, dflt)]. *)
Definition get (v : value) (key : string) (dflt : value) : outcome value :=
  match v with
  | VDict d => Returned (default dflt (d !! key))
  | _ => Raised (no_attribute v "get")
  end.

(** The truth value of [v]. *)
Definition truthy (v : value) : bool :=
  match v with
  | VNone => false
  | VBool b => b
  | VInt z => negb (z =? 0)%Z
  | VStr s => negb (PyStr.is_empty s)
  | VList l => nonempty l
  | VDict d => negb (bool_decide (d = ∅))
  end.

Definition not_iterable (v : value) : pyexc :=
  {| cls := CTypeError;
     msg := "'" +:+ type_name v +:+ "' object is not iterable" |}.

(** The error of [join] for an item that is not a string. *)
Definition not_a_str (i : nat) (v : value) : pyexc :=
  {| cls := CTypeError;
     msg := "sequence item " +:+ pretty i +:+ ": expected str instance, "
            +:+ type_name v +:+ " found" |}.

(** The items of a list as strings, for [join]; [i] is the index of the
    first one. *)
Fixpoint strings_from (i : nat) (vs : list value) : outcome (list string) :=
  match vs with
  | [] => Returned []
  | VStr s :: rest =>
      let? ss := strings_from (S i) rest in Returned (s :: ss)
  | v :: _ => Raised (not_a_str i v)
  end.

(** A loop that appends what [f] gives for each element, and ends at the
    first exception. *)
Fixpoint collect (f : value -> outcome (list value)) (xs : list value)
    : outcome (list value) :=
  match xs with
  | [] => Returned []
  | x :: rest =>
      let? a := f x in
      let? b := collect f rest in
      Returned (a ++ b)
  end.

Section Formatting.

Variable container_str : value -> string.
Variable keys_of : dict -> list string.

(** [f"{v}"]. *)
Definition py_str (v : value) : string :=
  match v with
  | VNone => "None"
  | VBool true => "True"
  | VBool false => "False"
  | VInt z => pretty z
  | VStr s => s
  | VList _ | VDict _ => container_str v
  end.

(** [for x in v]: the elements of a list, the characters of a string, the
    keys of a dict. *)
Definition iterate (v : value) : outcome (list value) :=
  match v with
  | VList l => Returned l
  | VStr s =>
      Returned (map (fun c => VStr (String c EmptyString))
                  (list_ascii_of_string s))
  | VDict d => Returned (map VStr (keys_of d))
  | _ => Raised (not_iterable v)
  end.

(** Lines 372-381: what one item appends. *)
Definition format_item (item : value) : outcome (list value) :=
  let? subtitle := get item "subtitle" VNone in
  let head :=
    if truthy subtitle then [VStr ("## " +:+ py_str subtitle)] else [] in
  let? details := get item "details" (VStr "") in
  match details with
  | VList ds =>
      Returned (head ++ map (fun d => VStr ("- " +:+ py_str d)) ds)
  | _ => Returned (head ++ [details])
  end.

(** Lines 369-383: what one section appends. *)
Definition format_section (section : value) : outcome (list value) :=
  let? title := get section "title" (VStr "Untitled Section") in
  let? content := get section "content" (VList []) in
  let? items := iterate content in
  let? lines := collect format_item items in
  Returned (VStr ("# " +:+ py_str title) :: lines ++ [VStr ""]).

Definition format_meeting_notes_markdown (notes_data : dict)
    : outcome string :=
  let metadata := default (VDict ∅) (notes_data !! "metadata") in
  let? date := get metadata "date" (VStr "N/A") in
  let? time := get metadata "time" (VStr "N/A") in
  let? attendees_count := get metadata "attendees_count" (VInt 0) in
  let? facilitator := get metadata "facilitator" (VStr "N/A") in
  let header :=
    [VStr ("# Meeting Details" +:+ nl);
     VStr ("**Date:** " +:+ py_str date);
     VStr ("**Time:** " +:+ py_str time);
     VStr ("**Attendees:** " +:+ py_str attendees_count +:+ " attendees");
     VStr ("**Facilitator:** " +:+ py_str facilitator +:+ nl)] in
  let? sections :=
    iterate (default (VList []) (notes_data !! "sections")) in
  let? body := collect format_section sections in
  let? markdown := strings_from 0 (header ++ body) in
  Returned (join nl markdown).

End Formatting.

(** *** Notes of the expected shape *)

Definition is_str (v : value) : bool :=
  match v with
  | VStr _ => true
  | _ => false
  end.




End MeetingNotes.

(** ** Reading order *)

(** The branch of the loop body a line takes. *)
Inductive line_kind :=
  | KBlank
  | KBullet
  | KHeading
  | KText.

Definition kind_of (raw : string) : line_kind :=
  let line := PyStr.rstrip raw in
  if PyStr.is_empty line then KBlank
  else if PyStr.startswith (PyStr.strip line) "- " then KBullet
  else if SliteAPI.is_section_header line then KHeading
  else match SliteAPI.is_numbered_section line with
       | Ok true => KHeading
       | _ => KText
       end.

(** No blank line and no bullet line comes while a paragraph is open: a
    paragraph is open from a line of regular text up to the next heading.
    [open] says whether one is open before the first line. *)
Fixpoint in_order (open : bool) (lines : list string) : bool :=
  match lines with
  | [] => true
  | raw :: rest =>
      match kind_of raw with
      | KBlank | KBullet => negb open && in_order false rest
      | KHeading => in_order false rest
      | KText => in_order true rest
      end
  end.

(** The texts of a state, in the order in which returning now would put
    them into the document. *)
Definition state_texts (st : state) : list string :=
  flat_map (fun l : loc => texts (heap st !!! l))
    (doc_content st ++ option_list (current_list st)
       ++ option_list (current_paragraph st)).

(** A state without sharing: the open list and the open paragraph are not
    in the document yet and are not both open, and no paragraph is open
    unless [open] says so. *)
Definition tidy (open : bool) (st : state) : Prop :=
  wf st
  /\ (open = false -> current_paragraph st = None)
  /\ (forall l : loc, In l (doc_content st) ->
        current_list st <> Some l /\ current_paragraph st <> Some l)
  /\ (current_list st = None \/ current_paragraph st = None).

(** * Properties *)

Import PyStr SliteAPI.

(** ** The string methods *)

Lemma rstrip_cons (c : ascii) (s : string) :
  rstrip (String c s) =
  match rstrip s with
  | EmptyString => if isspace c then EmptyString else String c EmptyString
  | r => String c r
  end.
Proof. reflexivity. Qed.

Lemma rstrip_idempotent (s : string) : rstrip (rstrip s) = rstrip s.
Proof.
  induction s as [|c s IH]; [reflexivity|].
  rewrite rstrip_cons.
  destruct (rstrip s) as [|a r] eqn:E.
  - destruct (isspace c) eqn:Ec; [reflexivity|].
    rewrite rstrip_cons. simpl. rewrite Ec. reflexivity.
  - rewrite rstrip_cons, IH. reflexivity.
Qed.

Lemma strip_rstrip (s : string) : strip (rstrip s) = strip s.
Proof. unfold strip. rewrite rstrip_idempotent. reflexivity. Qed.

Lemma strip_empty_line (s : string) :
  is_empty (rstrip s) = true -> strip (rstrip s) = EmptyString.
Proof.
  rewrite strip_rstrip. unfold strip.
  destruct (rstrip s); [reflexivity | discriminate].
Qed.

Lemma lstrip_nonspace (c : ascii) (s : string) :
  isspace c = false -> lstrip (String c s) = String c s.
Proof. intros H. simpl. rewrite H. reflexivity. Qed.

Lemma bullet_not_blank (raw : string) :
  startswith (strip (rstrip raw)) "- " = true -> is_empty (rstrip raw) = false.
Proof.
  intros H. destruct (is_empty (rstrip raw)) eqn:E; [|reflexivity].
  rewrite (strip_empty_line _ E) in H. discriminate.
Qed.

Lemma startswith_cons (s p : string) (a : ascii) :
  startswith s (String a p) = true ->
  exists rest, s = String a rest /\ startswith rest p = true.
Proof.
  destruct s as [|b s]; simpl; [discriminate|].
  intros H. apply andb_true_iff in H as [Hab H].
  apply Ascii.eqb_eq in Hab as <-. exists s. split; [reflexivity | exact H].
Qed.

(** A section header starts with a letter, so it is neither blank nor a
    bullet. *)
Lemma section_header_first (line : string) :
  is_section_header line = true ->
  exists c rest, line = String c rest /\ isspace c = false /\ c <> "-"%char.
Proof.
  unfold is_section_header. rewrite !orb_true_iff.
  intros [[[[H|H]|H]|H]|H]; apply startswith_cons in H as (rest & -> & _);
    eexists _, rest; (split; [reflexivity|]); split;
    solve [reflexivity | discriminate].
Qed.

Lemma section_header_not_bullet (raw : string) :
  is_section_header (rstrip raw) = true ->
  is_empty (rstrip raw) = false /\
  startswith (strip (rstrip raw)) "- " = false.
Proof.
  intros H. destruct (section_header_first _ H) as (c & rest & E & Hs & Hc).
  rewrite strip_rstrip. unfold strip. rewrite E.
  split; [reflexivity|].
  rewrite (lstrip_nonspace _ _ Hs).
  destruct (startswith (String c rest) "- ") eqn:B; [|reflexivity].
  apply startswith_cons in B as (r & B & _). congruence.
Qed.

Lemma startswith_String (a b : ascii) (s p : string) :
  startswith (String b s) (String a p) = Ascii.eqb a b && startswith s p.
Proof. reflexivity. Qed.

Lemma rstrip_fixed_cons (a : ascii) (p : string) :
  rstrip (String a p) = String a p ->
  match p with
  | EmptyString => isspace a = false
  | String _ _ => rstrip p = p
  end.
Proof.
  rewrite rstrip_cons. destruct p as [|b p'].
  - simpl. destruct (isspace a); [discriminate | reflexivity].
  - destruct (rstrip (String b p')) as [|x r].
    + destruct (isspace a); discriminate.
    + intros [= -> ->]. reflexivity.
Qed.

(** Trimming on the right keeps a prefix that does not end in whitespace,
    so it keeps a label at the start of a line. *)
Lemma startswith_rstrip (s p : string) :
  rstrip p = p -> startswith s p = true -> startswith (rstrip s) p = true.
Proof.
  revert p. induction s as [|b s IH]; intros p Hp H.
  - exact H.
  - destruct p as [|a p]; [destruct (rstrip (String b s)); reflexivity|].
    apply startswith_cons in H as (rest & [= -> ->] & H).
    apply rstrip_fixed_cons in Hp. rewrite rstrip_cons.
    destruct p as [|a' p'].
    + rewrite Hp. destruct (rstrip rest); rewrite startswith_String,
        Ascii.eqb_refl; reflexivity.
    + specialize (IH _ Hp H).
      destruct (rstrip rest) as [|y t]; [discriminate|].
      rewrite startswith_String, Ascii.eqb_refl. exact IH.
Qed.

Lemma section_header_rstrip (raw : string) :
  is_section_header raw = true -> is_section_header (rstrip raw) = true.
Proof.
  unfold is_section_header. rewrite !orb_true_iff.
  intros [[[[H|H]|H]|H]|H];
    apply startswith_rstrip in H; try reflexivity; rewrite H; auto.
Qed.

(** ** The heap *)

Lemma alter_at_end (f : node -> node) (h : list node) (n : node) :
  alter f (length h) (h ++ [n]) = h ++ [f n].
Proof. induction h as [|x h IH]; simpl; [reflexivity | f_equal; exact IH]. Qed.

(** ** The branches, spelled out *)

Lemma heading_line_spec (line : string) (st : state) :
  heading_line line st =
  {| heap := heap st ++ [Heading 2 [Text line]];
     doc_content := doc_content st ++ option_list (current_list st)
                      ++ option_list (current_paragraph st)
                      ++ [length (heap st)];
     current_list := None;
     current_paragraph := None |}.
Proof.
  destruct st as [h d [l|] [p|]];
    unfold heading_line, flush_list, flush_paragraph, alloc, doc_append,
      set_current_list, set_current_paragraph; simpl;
    rewrite <- ?app_assoc; reflexivity.
Qed.

Lemma bullet_line_open (s : string) (st : state) (l : loc) :
  current_list st = Some l ->
  bullet_line s st =
  obj_append l (ListItem [Paragraph [Text (slice_from 2 s)]]) st.
Proof. intros H. unfold bullet_line. rewrite H. reflexivity. Qed.

Lemma bullet_line_new (s : string) (st : state) :
  current_list st = None ->
  bullet_line s st =
  {| heap := heap st ++ [BulletList [ListItem [Paragraph [Text (slice_from 2 s)]]]];
     doc_content := doc_content st;
     current_list := Some (length (heap st));
     current_paragraph := current_paragraph st |}.
Proof.
  intros H. unfold bullet_line. rewrite H. unfold alloc, obj_append; simpl.
  rewrite alter_at_end. reflexivity.
Qed.

Lemma blank_line_heap (st : state) :
  heap (blank_line st) = heap st ++ [Paragraph [Text ""]].
Proof. destruct st as [h d [l|] [p|]]; reflexivity. Qed.

Lemma heading_line_heap (line : string) (st : state) :
  heap (heading_line line st) = heap st ++ [Heading 2 [Text line]].
Proof. rewrite heading_line_spec. reflexivity. Qed.

Lemma regular_line_heap (line : string) (st : state) :
  heap (regular_line line st) =
  match current_paragraph st with
  | Some l => alter (content_append (Text line)) l (heap st)
  | None => heap st ++ [Paragraph [Text line]]
  end.
Proof.
  destruct st as [h d [l|] [p|]]; unfold regular_line; simpl;
    rewrite ?alter_at_end; reflexivity.
Qed.

Lemma bullet_line_heap (s : string) (st : state) :
  heap (bullet_line s st) =
  match current_list st with
  | Some l =>
      alter (content_append (ListItem [Paragraph [Text (slice_from 2 s)]])) l
        (heap st)
  | None =>
      heap st ++ [BulletList [ListItem [Paragraph [Text (slice_from 2 s)]]]]
  end.
Proof.
  destruct (current_list st) as [l|] eqn:E.
  - rewrite (bullet_line_open _ _ _ E). reflexivity.
  - rewrite (bullet_line_new _ _ E). reflexivity.
Qed.

Lemma finish_heap (st : state) : heap (finish st) = heap st.
Proof. destruct st as [h d [l|] [p|]]; reflexivity. Qed.

(** ** No empty bullet list *)

Lemma bullets_nonempty_alloc (h : list node) (n : node) :
  bullets_nonempty h ->
  (forall items, n = BulletList items -> items <> []) ->
  bullets_nonempty (h ++ [n]).
Proof.
  intros Hh Hn l items Hl.
  apply lookup_app_Some in Hl as [Hl|[_ Hl]].
  - exact (Hh _ _ Hl).
  - apply list_lookup_singleton_Some in Hl as [_ ->]. apply Hn. reflexivity.
Qed.

Lemma bullets_nonempty_append (h : list node) (l : loc) (x : node) :
  bullets_nonempty h -> bullets_nonempty (alter (content_append x) l h).
Proof.
  intros Hh l' items Hl.
  destruct (decide (l = l')) as [<-|Hne].
  - rewrite list_lookup_alter_eq in Hl.
    apply fmap_Some in Hl as (n & _ & E).
    destruct n as [| | | |c|]; simpl in E; inversion E.
    destruct c; discriminate.
  - rewrite list_lookup_alter_ne in Hl by exact Hne. exact (Hh _ _ Hl).
Qed.

Lemma process_line_bullets_nonempty (st st' : state) (raw : string) :
  process_line st raw = Ok st' ->
  bullets_nonempty (heap st) -> bullets_nonempty (heap st').
Proof.
  unfold process_line. intros H Hh.
  assert (Hhead : forall line, bullets_nonempty (heap (heading_line line st))).
  { intros line. rewrite heading_line_heap.
    apply bullets_nonempty_alloc; [exact Hh | discriminate]. }
  destruct (is_empty (rstrip raw)).
  { inversion H. rewrite blank_line_heap.
    apply bullets_nonempty_alloc; [exact Hh | discriminate]. }
  destruct (startswith (strip (rstrip raw)) "- ").
  { inversion H. rewrite bullet_line_heap.
    destruct (current_list st).
    - apply bullets_nonempty_append, Hh.
    - apply bullets_nonempty_alloc; [exact Hh|].
      intros items E. inversion E. discriminate. }
  destruct (is_section_header (rstrip raw)).
  { inversion H. apply Hhead. }
  destruct (is_numbered_section (rstrip raw)) as [[|]|e]; simpl in H;
    inversion H.
  - apply Hhead.
  - rewrite regular_line_heap. destruct (current_paragraph st).
    + apply bullets_nonempty_append, Hh.
    + apply bullets_nonempty_alloc; [exact Hh | discriminate].
Qed.

Lemma process_lines_bullets_nonempty (lines : list string) (st st' : state) :
  process_lines st lines = Ok st' ->
  bullets_nonempty (heap st) -> bullets_nonempty (heap st').
Proof.
  revert st. induction lines as [|raw rest IH]; intros st H Hh; simpl in H.
  - inversion H. subst. exact Hh.
  - destruct (process_line st raw) as [st1|e] eqn:E; simpl in H;
      [|discriminate].
    apply (IH _ H). exact (process_line_bullets_nonempty _ _ _ E Hh).
Qed.

Lemma init_bullets_nonempty : bullets_nonempty (heap init).
Proof. intros l items H. discriminate. Qed.

(** ** Well-formed states *)

Lemma blank_line_spec (st : state) :
  blank_line st =
  {| heap := heap st ++ [Paragraph [Text ""]];
     doc_content := doc_content st ++ option_list (current_list st)
                      ++ option_list (current_paragraph st)
                      ++ [length (heap st)];
     current_list := None;
     current_paragraph := current_paragraph st |}.
Proof.
  destruct st as [h d [l|] [p|]];
    unfold blank_line, flush_list, append_open_paragraph, alloc, doc_append,
      set_current_list; simpl;
    rewrite <- ?app_assoc; reflexivity.
Qed.

Lemma regular_line_spec (line : string) (st : state) :
  regular_line line st =
  {| heap := match current_paragraph st with
             | Some l => alter (content_append (Text line)) l (heap st)
             | None => heap st ++ [Paragraph [Text line]]
             end;
     doc_content := doc_content st ++ option_list (current_list st);
     current_list := None;
     current_paragraph :=
       Some (default (length (heap st)) (current_paragraph st)) |}.
Proof.
  destruct st as [h d [l|] [p|]];
    unfold regular_line, flush_list, alloc, doc_append, obj_append,
      set_current_list, set_current_paragraph; simpl;
    rewrite ?alter_at_end, ?app_nil_r; reflexivity.
Qed.

Lemma bullet_line_spec (s : string) (st : state) :
  bullet_line s st =
  {| heap := match current_list st with
             | Some l =>
                 alter (content_append
                          (ListItem [Paragraph [Text (slice_from 2 s)]])) l
                   (heap st)
             | None =>
                 heap st
                   ++ [BulletList [ListItem [Paragraph [Text (slice_from 2 s)]]]]
             end;
     doc_content := doc_content st;
     current_list := Some (default (length (heap st)) (current_list st));
     current_paragraph := current_paragraph st |}.
Proof.
  destruct st as [h d [l|] p]; unfold bullet_line, alloc, obj_append,
    set_current_list; simpl; rewrite ?alter_at_end; reflexivity.
Qed.

Lemma content_append_type (x n : node) :
  node_type (content_append x n) = node_type n.
Proof. destruct n; reflexivity. Qed.

Lemma lookup_type_alter (h : list node) (l l' : loc) (x : node) :
  node_type <$> alter (content_append x) l h !! l' = node_type <$> h !! l'.
Proof.
  destruct (decide (l = l')) as [<-|Hne].
  - rewrite list_lookup_alter_eq, <- option_fmap_compose.
    apply option_fmap_ext. intros n. apply content_append_type.
  - rewrite list_lookup_alter_ne by exact Hne. reflexivity.
Qed.

Lemma lookup_type_app (h k : list node) (l : loc) (t : string) :
  node_type <$> h !! l = Some t -> node_type <$> (h ++ k) !! l = Some t.
Proof.
  intros H. apply fmap_Some in H as (n & Hn & ->).
  rewrite (lookup_app_l_Some _ _ _ _ Hn). reflexivity.
Qed.

Lemma lookup_type_end (h : list node) (n : node) :
  node_type <$> (h ++ [n]) !! length h = Some (node_type n).
Proof. rewrite list_lookup_middle by reflexivity. reflexivity. Qed.

Lemma lookup_type_lt (h : list node) (l : loc) (t : string) :
  node_type <$> h !! l = Some t -> l < length h.
Proof.
  intros H. apply fmap_Some in H as (n & Hn & _).
  exact (lookup_lt_Some _ _ _ Hn).
Qed.

Lemma Forall_lt_mono (d : list loc) (n m : nat) :
  Forall (fun l : loc => l < n) d -> n <= m -> Forall (fun l : loc => l < m) d.
Proof. intros H Hle. eapply Forall_impl; [exact H|]. simpl. lia. Qed.

Lemma init_wf : wf init.
Proof. repeat split; [constructor | discriminate | discriminate]. Qed.

Lemma wf_open_refs (st : state) :
  wf st ->
  Forall (fun l : loc => l < length (heap st)) (option_list (current_list st))
  /\ Forall (fun l : loc => l < length (heap st))
       (option_list (current_paragraph st)).
Proof.
  intros (_ & Hl & Hp). split.
  - destruct (current_list st) as [l|]; constructor; [|constructor].
    exact (lookup_type_lt _ _ _ (Hl l eq_refl)).
  - destruct (current_paragraph st) as [l|]; constructor; [|constructor].
    exact (lookup_type_lt _ _ _ (Hp l eq_refl)).
Qed.

Lemma blank_line_wf (st : state) : wf st -> wf (blank_line st).
Proof.
  intros H. destruct (wf_open_refs _ H) as [Hol Hop].
  destruct H as (Hd & Hl & Hp).
  rewrite blank_line_spec. unfold wf; simpl. rewrite length_app; simpl.
  split; [|split].
  - rewrite !Forall_app. repeat split;
      try (eapply Forall_lt_mono; [eassumption | lia]).
    constructor; [lia | constructor].
  - discriminate.
  - intros l E. apply lookup_type_app. exact (Hp l E).
Qed.

Lemma heading_line_wf (line : string) (st : state) :
  wf st -> wf (heading_line line st).
Proof.
  intros H. destruct (wf_open_refs _ H) as [Hol Hop].
  destruct H as (Hd & Hl & Hp).
  rewrite heading_line_spec. unfold wf; simpl. rewrite length_app; simpl.
  split; [|split]; [|discriminate|discriminate].
  rewrite !Forall_app. repeat split;
    try (eapply Forall_lt_mono; [eassumption | lia]).
  constructor; [lia | constructor].
Qed.

Lemma bullet_line_wf (s : string) (st : state) :
  wf st -> wf (bullet_line s st).
Proof.
  intros H. destruct H as (Hd & Hl & Hp).
  rewrite bullet_line_spec. unfold wf; simpl.
  destruct (current_list st) as [l|]; simpl.
  - rewrite length_alter. split; [exact Hd|]. split.
    + intros l' [= <-]. rewrite lookup_type_alter. exact (Hl l eq_refl).
    + intros l' E. rewrite lookup_type_alter. exact (Hp l' E).
  - rewrite length_app; simpl. split; [|split].
    + eapply Forall_lt_mono; [exact Hd | lia].
    + intros l' [= <-]. apply lookup_type_end.
    + intros l' E. apply lookup_type_app. exact (Hp l' E).
Qed.

Lemma regular_line_wf (line : string) (st : state) :
  wf st -> wf (regular_line line st).
Proof.
  intros H. destruct (wf_open_refs _ H) as [Hol _].
  destruct H as (Hd & Hl & Hp).
  rewrite regular_line_spec. unfold wf; simpl.
  destruct (current_paragraph st) as [p|]; simpl.
  - rewrite length_alter. split; [|split]; [|discriminate|].
    + rewrite Forall_app. split; assumption.
    + intros l' [= <-]. rewrite lookup_type_alter. exact (Hp p eq_refl).
  - rewrite length_app; simpl. split; [|split]; [|discriminate|].
    + rewrite Forall_app.
      split; (eapply Forall_lt_mono; [eassumption | lia]).
    + intros l' [= <-]. apply lookup_type_end.
Qed.

Lemma process_line_wf (st st' : state) (raw : string) :
  process_line st raw = Ok st' -> wf st -> wf st'.
Proof.
  unfold process_line. intros H Hwf.
  destruct (is_empty (rstrip raw)).
  { inversion H. apply blank_line_wf, Hwf. }
  destruct (startswith (strip (rstrip raw)) "- ").
  { inversion H. apply bullet_line_wf, Hwf. }
  destruct (is_section_header (rstrip raw)).
  { inversion H. apply heading_line_wf, Hwf. }
  destruct (is_numbered_section (rstrip raw)) as [[|]|e]; simpl in H;
    inversion H.
  - apply heading_line_wf, Hwf.
  - apply regular_line_wf, Hwf.
Qed.

Lemma process_lines_wf (lines : list string) (st st' : state) :
  process_lines st lines = Ok st' -> wf st -> wf st'.
Proof.
  revert st. induction lines as [|raw rest IH]; intros st H Hwf; simpl in H.
  - inversion H. subst. exact Hwf.
  - destruct (process_line st raw) as [st1|e] eqn:E; simpl in H;
      [|discriminate].
    apply (IH _ H). exact (process_line_wf _ _ _ E Hwf).
Qed.

Lemma finish_spec (st : state) :
  finish st =
  {| heap := heap st;
     doc_content := doc_content st ++ option_list (current_list st)
                      ++ option_list (current_paragraph st);
     current_list := current_list st;
     current_paragraph := current_paragraph st |}.
Proof.
  destruct st as [h d [l|] [p|]]; unfold finish, append_open_list,
    append_open_paragraph, doc_append; simpl;
    rewrite <- ?app_assoc, ?app_nil_r; reflexivity.
Qed.

Lemma finish_wf (st : state) : wf st -> wf (finish st).
Proof.
  intros H. destruct (wf_open_refs _ H) as [Hol Hop].
  destruct H as (Hd & Hl & Hp).
  rewrite finish_spec. unfold wf; simpl. split; [|split; assumption].
  rewrite !Forall_app. repeat split; assumption.
Qed.

(** ** When the converter raises *)

Lemma isdigit_not_isspace (c : ascii) : isdigit c = true -> isspace c = false.
Proof. destruct c as [[] [] [] [] [] [] [] []]; vm_compute; congruence. Qed.

Lemma is_numbered_section_raises (line : string) (e : exn) :
  is_numbered_section line = Raise e <->
  e = IndexError
  /\ (line = EmptyString
      \/ exists c, line = String c EmptyString /\ isdigit c = true).
Proof.
  unfold is_numbered_section, index.
  destruct line as [|c [|c1 rest]]; simpl.
  - split; [intros [= <-]; auto | intros [-> _]; reflexivity].
  - destruct (isdigit c) eqn:D; simpl.
    + split; [intros [= <-]; eauto | intros [-> _]; reflexivity].
    + split; [discriminate|]. intros [_ [?|(c' & [= <-] & D')]]; congruence.
  - destruct (isdigit c); simpl;
      (split; [discriminate|]);
      intros [_ [?|(c' & ? & _)]]; discriminate.
Qed.

Lemma section_header_long (c : ascii) :
  is_section_header (String c EmptyString) = false.
Proof.
  destruct (is_section_header (String c EmptyString)) eqn:E; [|reflexivity].
  unfold is_section_header in E. rewrite !orb_true_iff in E.
  destruct E as [[[[E|E]|E]|E]|E];
    apply startswith_cons in E as (rest & [= _ <-] & E); discriminate.
Qed.

Lemma process_line_raises (st : state) (raw : string) (e : exn) :
  process_line st raw = Raise e <->
  e = IndexError
  /\ exists c, rstrip raw = String c EmptyString /\ isdigit c = true.
Proof.
  unfold process_line. split.
  - destruct (is_empty (rstrip raw)) eqn:E0; [discriminate|].
    destruct (startswith (strip (rstrip raw)) "- "); [discriminate|].
    destruct (is_section_header (rstrip raw)); [discriminate|].
    destruct (is_numbered_section (rstrip raw)) as [[|]|e'] eqn:E;
      simpl; try discriminate.
    intros [= <-]. apply is_numbered_section_raises in E as [-> [E|E]].
    + rewrite E in E0. discriminate.
    + auto.
  - intros [-> (c & E & D)].
    assert (Hs : strip (rstrip raw) = String c EmptyString).
    { rewrite strip_rstrip. unfold strip. rewrite E.
      apply lstrip_nonspace, isdigit_not_isspace, D. }
    rewrite Hs, E. simpl is_empty. cbv iota.
    replace (startswith (String c EmptyString) "- ") with false
      by (simpl; rewrite andb_false_r; reflexivity).
    rewrite section_header_long.
    replace (is_numbered_section (String c EmptyString))
      with (@Raise bool IndexError); [reflexivity|].
    symmetry. apply is_numbered_section_raises. eauto.
Qed.

Lemma process_lines_raises (lines : list string) (st : state) (e : exn) :
  process_lines st lines = Raise e <->
  e = IndexError
  /\ exists raw c, In raw lines /\ rstrip raw = String c EmptyString
                   /\ isdigit c = true.
Proof.
  revert st. induction lines as [|raw rest IH]; intros st; simpl.
  - split; [discriminate | intros [_ (? & ? & [] & _)]].
  - destruct (process_line st raw) as [st1|e1] eqn:E; simpl.
    + rewrite IH. split.
      * intros [-> (r & c & Hin & Hr)]. split; [reflexivity|].
        exists r, c. auto.
      * intros [-> (r & c & [<-|Hin] & Hr & D)].
        -- assert (process_line st raw = Raise IndexError) as E'
             by (apply process_line_raises; eauto).
           congruence.
        -- split; [reflexivity|]. exists r, c. auto.
    + apply process_line_raises in E as [-> (c & Hr & D)]. split.
      * intros [= <-]. split; [reflexivity|]. exists raw, c. auto.
      * intros [-> _]. reflexivity.
Qed.

(** * The converter: the claims *)

(** C1.  The converter does not return for every input: for the one-line
    text ["5"] the test of line 209 evaluates [line[1]] on a string of
    length one and the call raises [IndexError] instead of taking the line
    as regular text. *)
Theorem convert_single_digit_raises :
  _convert_to_prosemirror "5" = Raise IndexError.
Proof. reflexivity. Qed.

(** C2.  The blank-line branch appends the open paragraph to the document
    but leaves it open, so the text after the blank line is appended to the
    same object and that object is appended once more at the end: for
    ["a\n\nb"] the first and the third child are both the paragraph with the
    leaves ["a"] and ["b"]. *)
Theorem convert_blank_line_keeps_paragraph_open :
  (forall st : state, current_paragraph (blank_line st) = current_paragraph st)
  /\ _convert_to_prosemirror ("a" +:+ nl +:+ nl +:+ "b") =
     Ok (Doc [Paragraph [Text "a"; Text "b"];
              Paragraph [Text ""];
              Paragraph [Text "a"; Text "b"]]).
Proof.
  split; [|reflexivity].
  intros st. rewrite blank_line_spec. reflexivity.
Qed.

(** C3.  The bullet branch appends nothing to the document and leaves the
    open paragraph open, so for ["t\n- a"] the bullet list comes before the
    paragraph among the children. *)
Theorem convert_bullet_does_not_flush_paragraph :
  (forall (s : string) (st : state),
      doc_content (bullet_line s st) = doc_content st
      /\ current_paragraph (bullet_line s st) = current_paragraph st)
  /\ _convert_to_prosemirror ("t" +:+ nl +:+ "- a") =
     Ok (Doc [BulletList [ListItem [Paragraph [Text "a"]]];
              Paragraph [Text "t"]]).
Proof.
  split; [|reflexivity].
  intros s st. rewrite bullet_line_spec. split; reflexivity.
Qed.

(** C4, as stated, fails: the document built from the empty string is not
    the one without children. *)
Lemma convert_empty_has_a_child : _convert_to_prosemirror "" <> Ok (Doc []).
Proof. discriminate. Qed.

(** C4, amended.  [split] of the empty string is one empty line, and the
    blank-line branch appends a paragraph for it: the document built from
    the empty string has exactly one child, a paragraph with a single empty
    text leaf. *)
Theorem convert_empty :
  _convert_to_prosemirror "" = Ok (Doc [Paragraph [Text ""]]).
Proof. reflexivity. Qed.

(** C6.  Every bullet list among the children of a document the converter
    returns has at least one item. *)
Theorem bullet_lists_nonempty (s : string) (children items : list node) :
  _convert_to_prosemirror s = Ok (Doc children) ->
  In (BulletList items) children ->
  items <> [].
Proof.
  unfold _convert_to_prosemirror, read_doc. intros H Hin.
  destruct (process_lines init (split newline s)) as [st|e] eqn:E;
    simpl in H; [|discriminate].
  injection H as <-.
  apply in_map_iff in Hin as (l & Hl & _).
  rewrite finish_heap, list_lookup_total_alt in Hl.
  pose proof (process_lines_bullets_nonempty _ _ _ E init_bullets_nonempty)
    as Hne.
  destruct (heap st !! l) as [n|] eqn:En; simpl in Hl.
  - subst n. exact (Hne _ _ En).
  - discriminate.
Qed.

Lemma bullet_lists_nonempty_witness :
  _convert_to_prosemirror ("- a" +:+ nl +:+ "x") =
    Ok (Doc [BulletList [ListItem [Paragraph [Text "a"]]];
             Paragraph [Text "x"]])
  /\ [ListItem [Paragraph [Text "a"]]] <> [].
Proof.
  split; [reflexivity|].
  apply (bullet_lists_nonempty ("- a" +:+ nl +:+ "x")
           [BulletList [ListItem [Paragraph [Text "a"]]]; Paragraph [Text "x"]]).
  - reflexivity.
  - left. reflexivity.
Defined.

(** C7.  A line that starts with one of the five labels still does after
    the trim on the right, and for such a line the converter closes the open
    list and the open paragraph (each is appended to the document, in this
    order, and the reference is cleared) and then appends a new level-2
    heading whose only child is the text of the whole trimmed line; the text
    ["Date: 2024-01-01"] gives a document with this heading as its only
    child. *)
Theorem section_header_line :
  (forall (st : state) (raw : string),
      is_section_header (rstrip raw) = true ->
      process_line st raw =
      Ok {| heap := heap st ++ [Heading 2 [Text (rstrip raw)]];
            doc_content := doc_content st ++ option_list (current_list st)
                             ++ option_list (current_paragraph st)
                             ++ [length (heap st)];
            current_list := None;
            current_paragraph := None |})
  /\ (forall raw : string,
        is_section_header raw = true -> is_section_header (rstrip raw) = true)
  /\ _convert_to_prosemirror "Date: 2024-01-01" =
     Ok (Doc [Heading 2 [Text "Date: 2024-01-01"]]).
Proof.
  split; [|split; [exact section_header_rstrip | reflexivity]].
  intros st raw H. unfold process_line.
  destruct (section_header_not_bullet _ H) as [-> ->].
  rewrite H, heading_line_spec. reflexivity.
Qed.

Lemma section_header_line_witness :
  process_line
    {| heap := [BulletList [ListItem [Paragraph [Text "a"]]];
                Paragraph [Text "x"]];
       doc_content := []; current_list := Some 0;
       current_paragraph := Some 1 |}
    "Attendees: Ann, Bob  " =
  Ok {| heap := [BulletList [ListItem [Paragraph [Text "a"]]];
                 Paragraph [Text "x"];
                 Heading 2 [Text "Attendees: Ann, Bob"]];
        doc_content := [0; 1; 2]; current_list := None;
        current_paragraph := None |}.
Proof.
  apply (proj1 section_header_line
           {| heap := [BulletList [ListItem [Paragraph [Text "a"]]];
                       Paragraph [Text "x"]];
              doc_content := []; current_list := Some 0;
              current_paragraph := Some 1 |}
           "Attendees: Ann, Bob  ").
  reflexivity.
Defined.

(** C8.  The text ["- a\n- b"] gives a document with one child, a bullet
    list of two items, ["a"] then ["b"], each a list item holding one
    paragraph with one text leaf. *)
Theorem convert_two_bullets :
  _convert_to_prosemirror ("- a" +:+ nl +:+ "- b") =
  Ok (Doc [BulletList [ListItem [Paragraph [Text "a"]];
                       ListItem [Paragraph [Text "b"]]]]).
Proof. reflexivity. Qed.

(** C10.  For a bullet line the item's text is [line.strip()] without its
    first two characters, where stripping [line] is stripping the raw line:
    the item is appended to the open list, or to a new list that becomes the
    open one.  The text ["  - a"] gives one item with the text ["a"]. *)
Theorem bullet_item_text :
  (forall (st : state) (raw : string),
      startswith (strip (rstrip raw)) "- " = true ->
      strip (rstrip raw) = strip raw
      /\ process_line st raw =
         Ok {| heap :=
                 match current_list st with
                 | Some l =>
                     alter (content_append
                              (ListItem
                                 [Paragraph [Text (slice_from 2 (strip raw))]]))
                       l (heap st)
                 | None =>
                     heap st
                       ++ [BulletList
                             [ListItem
                                [Paragraph [Text (slice_from 2 (strip raw))]]]]
                 end;
               doc_content := doc_content st;
               current_list :=
                 Some (default (length (heap st)) (current_list st));
               current_paragraph := current_paragraph st |})
  /\ _convert_to_prosemirror "  - a" =
     Ok (Doc [BulletList [ListItem [Paragraph [Text "a"]]]]).
Proof.
  split; [|reflexivity].
  intros st raw H. split; [apply strip_rstrip|].
  unfold process_line. rewrite (bullet_not_blank _ H), H.
  rewrite bullet_line_spec, strip_rstrip. reflexivity.
Qed.

Lemma bullet_item_text_witness :
  process_line
    {| heap := [BulletList [ListItem [Paragraph [Text "a"]]]];
       doc_content := []; current_list := Some 0;
       current_paragraph := None |}
    "    - b c  " =
  Ok {| heap := [BulletList [ListItem [Paragraph [Text "a"]];
                             ListItem [Paragraph [Text "b c"]]]];
        doc_content := []; current_list := Some 0;
        current_paragraph := None |}.
Proof.
  apply (proj2 (proj1 bullet_item_text
           {| heap := [BulletList [ListItem [Paragraph [Text "a"]]]];
              doc_content := []; current_list := Some 0;
              current_paragraph := None |}
           "    - b c  " eq_refl)).
Defined.

(** * The metadata stamp *)

Lemma stamp_updated_by (now : string) (m : dict) :
  stamp now m !! "updated_by" = Some (VStr "Slite Integration Agent").
Proof. unfold stamp. apply lookup_insert_eq. Qed.

Lemma stamp_frame (now : string) (m : dict) (k : string) :
  k <> "last_updated" -> k <> "updated_by" -> stamp now m !! k = m !! k.
Proof.
  intros H1 H2. unfold stamp.
  rewrite !lookup_insert_ne by congruence. reflexivity.
Qed.

(** C9.  A call of [add_metadata] that returns leaves every key other than
    ["metadata"] as it was, ["metadata"] then holds a mapping whose
    ["updated_by"] is ["Slite Integration Agent"] and whose other keys,
    ["last_updated"] apart, are as in the old mapping (the empty one when
    there was none).  The call returns unless [data] has under
    ["metadata"] a value that is not a mapping, when [update] raises
    [AttributeError]; when the input has no ["metadata"] it returns the
    input with a new mapping under ["metadata"] that holds the two stamps. *)
Theorem add_metadata_frame (now : string) (data : dict) :
  match add_metadata now data with
  | Ok data' =>
      (forall k : string, k <> "metadata" -> data' !! k = data !! k)
      /\ exists m' : dict,
           data' !! "metadata" = Some (VDict m')
           /\ m' !! "updated_by" = Some (VStr "Slite Integration Agent")
           /\ (forall k : string,
                 k <> "last_updated" -> k <> "updated_by" ->
                 m' !! k = old_metadata data !! k)
  | Raise e =>
      e = AttributeError
      /\ exists v : value, data !! "metadata" = Some v /\ is_dict v = false
  end
  /\ (data !! "metadata" = None ->
      add_metadata now data =
      Ok (<["metadata" := VDict (stamp now ∅)]> data)).
Proof.
  unfold add_metadata, old_metadata.
  destruct (data !! "metadata") as [v|] eqn:E.
  - split; [|discriminate]. rewrite E. simpl.
    destruct v as [| | | | |m]; simpl;
      try (split; [reflexivity | eexists; split; [reflexivity|reflexivity]]).
    split.
    + intros k Hk. rewrite lookup_insert_ne by congruence. reflexivity.
    + exists (stamp now m). rewrite lookup_insert_eq.
      split; [reflexivity|]. split; [apply stamp_updated_by|].
      intros k H1 H2. apply stamp_frame; assumption.
  - rewrite lookup_insert_eq. simpl. rewrite insert_insert_eq.
    split; [|reflexivity]. split.
    + intros k Hk. rewrite lookup_insert_ne by congruence. reflexivity.
    + exists (stamp now ∅). rewrite lookup_insert_eq.
      split; [reflexivity|]. split; [apply stamp_updated_by|].
      intros k H1 H2. apply stamp_frame; assumption.
Qed.

Lemma add_metadata_frame_witness :
  add_metadata "2024-01-01 10:00:00" {["title" := VStr "Notes"]} =
  Ok (<["metadata" := VDict (stamp "2024-01-01 10:00:00" ∅)]>
        {["title" := VStr "Notes"]}).
Proof.
  apply (proj2 (add_metadata_frame "2024-01-01 10:00:00"
                  {["title" := VStr "Notes"]})).
  reflexivity.
Defined.

(** * The event handlers *)

Import SliteEventHandler.

Section TriggerProperties.

Variable call : handler -> store -> store * outcome.




Lemma calls_of_app (hs hs' : list handler) (st : store) :
  calls_of call (hs ++ hs') st
  = calls_of call hs st ++ calls_of call hs' (after call hs st).
Proof.
  revert st. induction hs as [|h hs IH]; intros st; simpl;
    [reflexivity | rewrite IH; reflexivity].
Qed.

Lemma error_lines_app (prefix : string) (hs hs' : list handler) (st : store) :
  error_lines call prefix (hs ++ hs') st
  = error_lines call prefix hs st
    ++ error_lines call prefix hs' (after call hs st).
Proof.
  revert st. induction hs as [|h hs IH]; intros st; simpl;
    [reflexivity | rewrite IH, app_assoc; reflexivity].
Qed.





End TriggerProperties.




(** * Further properties *)

(** X1.  The converter returns a document unless some line of the text,
    trimmed on the right, is a single digit; then, and only then, it raises
    [IndexError]. *)
Theorem convert_returns_or_index_error (s : string) :
  ((exists raw c, In raw (split newline s)
                  /\ rstrip raw = String c EmptyString /\ isdigit c = true)
   <-> _convert_to_prosemirror s = Raise IndexError)
  /\ ((exists children, _convert_to_prosemirror s = Ok (Doc children))
      \/ _convert_to_prosemirror s = Raise IndexError).
Proof.
  unfold _convert_to_prosemirror, read_doc.
  destruct (process_lines init (split newline s)) as [st|e] eqn:E; simpl.
  - split; [|left; eauto].
    split; [|discriminate]. intros Hex.
    assert (process_lines init (split newline s) = Raise IndexError) as E'
      by (apply process_lines_raises; auto).
    congruence.
  - apply process_lines_raises in E as [-> Hex]. split; [|right; reflexivity].
    split; [reflexivity | intros _; exact Hex].
Qed.

(** X2.  Every state the loop reaches, and the state at the return, is well
    formed: the document and the two open references only hold locations of
    the heap, the open list is a bullet list and the open paragraph a
    paragraph.  So no subscript of ["content"] fails and the document that
    is read back holds objects of the heap only. *)
Theorem reachable_states_wf (lines : list string) (st : state) :
  process_lines init lines = Ok st -> wf st /\ wf (finish st).
Proof.
  intros H. pose proof (process_lines_wf _ _ _ H init_wf) as Hwf.
  split; [exact Hwf | apply finish_wf, Hwf].
Qed.

Lemma reachable_states_wf_witness :
  wf {| heap := [Paragraph [Text "a"]; Paragraph [Text ""]];
        doc_content := [0; 1]; current_list := None;
        current_paragraph := Some 0 |}
  /\ wf {| heap := [Paragraph [Text "a"]; Paragraph [Text ""]];
           doc_content := [0; 1; 0]; current_list := None;
           current_paragraph := Some 0 |}.
Proof.
  apply (reachable_states_wf ["a"; ""]). reflexivity.
Defined.



(** X4.  A line whose first character is a digit and whose second is a
    period is a level-2 heading with the whole trimmed line as its text,
    after the open list and the open paragraph are closed. *)
Theorem numbered_section_line (st : state) (raw rest : string) (c : ascii) :
  rstrip raw = String c (String "."%char rest) -> isdigit c = true ->
  process_line st raw =
  Ok {| heap := heap st ++ [Heading 2 [Text (rstrip raw)]];
        doc_content := doc_content st ++ option_list (current_list st)
                         ++ option_list (current_paragraph st)
                         ++ [length (heap st)];
        current_list := None;
        current_paragraph := None |}.
Proof.
  intros E D. unfold process_line.
  assert (Hs : strip (rstrip raw) = rstrip raw).
  { rewrite strip_rstrip. unfold strip. rewrite E.
    apply lstrip_nonspace, isdigit_not_isspace, D. }
  rewrite Hs, E. simpl is_empty. cbv iota.
  destruct (startswith (String c (String "."%char rest)) "- ") eqn:B.
  { apply startswith_cons in B as (r & [= _ <-] & B). discriminate. }
  destruct (is_section_header (String c (String "."%char rest))) eqn:Hh.
  { unfold is_section_header in Hh. rewrite !orb_true_iff in Hh.
    destruct Hh as [[[[Hh|Hh]|Hh]|Hh]|Hh];
      apply startswith_cons in Hh as (r & [= -> _] & _); discriminate. }
  unfold is_numbered_section, index. simpl. rewrite D. simpl.
  rewrite heading_line_spec. reflexivity.
Qed.

Lemma numbered_section_line_witness :
  process_line init "1. Agenda " =
  Ok {| heap := [Heading 2 [Text "1. Agenda"]]; doc_content := [0];
        current_list := None; current_paragraph := None |}.
Proof.
  apply (numbered_section_line init "1. Agenda " " Agenda" "1"%char
           eq_refl eq_refl).
Defined.

(** X5.  Registering appends the handler to the list of its kind and leaves
    the other lists alone; a handler registered twice is called twice. *)
Theorem register_appends :
  (forall (k k' : event_kind) (self : t) (h : handler),
      handlers_of k' (register k self h) =
      if decide (k = k') then handlers_of k' self ++ [h]
      else handlers_of k' self)
  /\ trigger sample_call document_created 2
       (on_document_created (on_document_created __init__ quiet_handler)
          quiet_handler)
       ∅ no_effects =
     ({| called := [(3, ∅); (3, ∅)]; logged := [] |},
      {| handlers :=
           on_document_created (on_document_created __init__ quiet_handler)
             quiet_handler;
         payload := ∅ |},
      Some Returns).
Proof. split; [|reflexivity]. intros k k' self h. destruct k, k'; reflexivity. Qed.








(** * The shape of the document *)

Lemma valid_append_text (h : list node) (l : loc) (t : string) :
  Forall (fun n => valid_block n = true) h ->
  node_type <$> h !! l = Some "paragraph" ->
  Forall (fun n => valid_block n = true) (alter (content_append (Text t)) l h).
Proof.
  intros Hv Hl. apply Forall_alter; [exact Hv|].
  intros x Hx Hvx. rewrite Hx in Hl. simpl in Hl. injection Hl as Hl.
  destruct x as [| c | | | |]; try discriminate. simpl in *.
  apply andb_true_iff in Hvx as [_ Hc].
  rewrite forallb_app, Hc. destruct c; reflexivity.
Qed.

Lemma valid_append_item (h : list node) (l : loc) (t : string) :
  Forall (fun n => valid_block n = true) h ->
  node_type <$> h !! l = Some "bulletList" ->
  Forall (fun n => valid_block n = true)
    (alter (content_append (ListItem [Paragraph [Text t]])) l h).
Proof.
  intros Hv Hl. apply Forall_alter; [exact Hv|].
  intros x Hx Hvx. rewrite Hx in Hl. simpl in Hl. injection Hl as Hl.
  destruct x as [| | | | c |]; try discriminate. simpl in *.
  apply andb_true_iff in Hvx as [_ Hc].
  rewrite forallb_app, Hc. destruct c; reflexivity.
Qed.

Lemma valid_alloc (h : list node) (n : node) :
  Forall (fun n => valid_block n = true) h -> valid_block n = true ->
  Forall (fun n => valid_block n = true) (h ++ [n]).
Proof. intros Hv Hn. apply Forall_app. split; [exact Hv | repeat constructor; exact Hn]. Qed.

Lemma process_line_valid (st st' : state) (raw : string) :
  process_line st raw = Ok st' -> wf st ->
  Forall (fun n => valid_block n = true) (heap st) ->
  Forall (fun n => valid_block n = true) (heap st').
Proof.
  unfold process_line. intros H (_ & Hl & Hp) Hv.
  assert (Hhead : forall line,
             Forall (fun n => valid_block n = true)
               (heap (heading_line line st))).
  { intros line. rewrite heading_line_heap.
    apply valid_alloc; [exact Hv | reflexivity]. }
  destruct (is_empty (rstrip raw)).
  { inversion H. rewrite blank_line_heap.
    apply valid_alloc; [exact Hv | reflexivity]. }
  destruct (startswith (strip (rstrip raw)) "- ").
  { inversion H. rewrite bullet_line_heap.
    destruct (current_list st) as [l|].
    - apply valid_append_item; [exact Hv | exact (Hl l eq_refl)].
    - apply valid_alloc; [exact Hv | reflexivity]. }
  destruct (is_section_header (rstrip raw)).
  { inversion H. apply Hhead. }
  destruct (is_numbered_section (rstrip raw)) as [[|]|e]; simpl in H;
    inversion H.
  - apply Hhead.
  - rewrite regular_line_heap. destruct (current_paragraph st) as [p|].
    + apply valid_append_text; [exact Hv | exact (Hp p eq_refl)].
    + apply valid_alloc; [exact Hv | reflexivity].
Qed.

Lemma process_lines_valid (lines : list string) (st st' : state) :
  process_lines st lines = Ok st' -> wf st ->
  Forall (fun n => valid_block n = true) (heap st) ->
  Forall (fun n => valid_block n = true) (heap st').
Proof.
  revert st. induction lines as [|raw rest IH]; intros st H Hwf Hv; simpl in H.
  - inversion H. subst. exact Hv.
  - destruct (process_line st raw) as [st1|e] eqn:E; simpl in H;
      [|discriminate].
    apply (IH _ H).
    + exact (process_line_wf _ _ _ E Hwf).
    + exact (process_line_valid _ _ _ E Hwf Hv).
Qed.

(** The children of a returned document are objects of the heap. *)
Lemma read_doc_children (st : state) (children : list node) :
  wf st -> read_doc st = Doc children ->
  Forall (fun n => exists l, In l (doc_content st) /\ heap st !! l = Some n)
    children.
Proof.
  intros (Hd & _) [= <-]. apply List.Forall_forall. intros n Hn.
  apply in_map_iff in Hn as (l & <- & Hl). exists l. split; [exact Hl|].
  apply list_lookup_lookup_total_lt.
  rewrite List.Forall_forall in Hd. exact (Hd l Hl).
Qed.

(** X7.  The children of a document the converter returns are paragraphs
    with one or more text leaves, level-2 headings with exactly one text
    leaf, and bullet lists with one or more items, each item one paragraph
    with one text leaf: no other node is a child and no block is nested
    deeper. *)
Theorem convert_children_valid (s : string) (children : list node) :
  _convert_to_prosemirror s = Ok (Doc children) ->
  Forall (fun n => valid_block n = true) children.
Proof.
  unfold _convert_to_prosemirror. intros H.
  destruct (process_lines init (split newline s)) as [st|e] eqn:E;
    simpl in H; [|discriminate].
  assert (H' : read_doc (finish st) = Doc children) by congruence.
  clear H. rename H' into H.
  pose proof (process_lines_wf _ _ _ E init_wf) as Hwf.
  pose proof (process_lines_valid _ _ _ E init_wf (List.Forall_nil _)) as Hv.
  pose proof (read_doc_children _ _ (finish_wf _ Hwf) H) as Hc.
  rewrite finish_heap in Hc.
  eapply Forall_impl; [exact Hc|]. simpl. intros n (l & _ & Hn).
  rewrite List.Forall_forall in Hv. apply Hv.
  apply list_elem_of_In. eapply list_elem_of_lookup_2. exact Hn.
Qed.

Lemma convert_children_valid_witness :
  Forall (fun n => valid_block n = true)
    [Heading 2 [Text "1. Plan"];
     BulletList [ListItem [Paragraph [Text "a"]]];
     Paragraph [Text "x"; Text "y"]].
Proof.
  apply (convert_children_valid
           ("1. Plan" +:+ nl +:+ "- a" +:+ nl +:+ "x" +:+ nl +:+ "y")).
  reflexivity.
Defined.

(** * The texts of the document *)

Lemma alter_middle (f : node -> node) (h1 h2 : list node) (n : node) :
  alter f (length h1) (h1 ++ n :: h2) = h1 ++ f n :: h2.
Proof. induction h1 as [|x h1 IH]; simpl; [reflexivity | f_equal; exact IH]. Qed.

Lemma texts_content_append (x n : node) :
  is_text n = false -> texts (content_append x n) = texts n ++ texts x.
Proof.
  destruct n; simpl; try discriminate; intros _;
    rewrite flat_map_app; simpl; rewrite app_nil_r; reflexivity.
Qed.

Lemma heap_texts_alloc (h : list node) (n : node) :
  heap_texts (h ++ [n]) = heap_texts h ++ texts n.
Proof. unfold heap_texts. rewrite flat_map_app. simpl. rewrite app_nil_r. reflexivity. Qed.

Lemma in_heap_texts (h : list node) (t : string) :
  In t (heap_texts h) <-> exists l n, h !! l = Some n /\ In t (texts n).
Proof.
  unfold heap_texts. rewrite in_flat_map. split.
  - intros (n & Hn & Ht). apply list_elem_of_In, list_elem_of_lookup_1 in Hn as [l Hl].
    eauto.
  - intros (l & n & Hl & Ht). exists n. split; [|exact Ht].
    apply list_elem_of_In. eapply list_elem_of_lookup_2. exact Hl.
Qed.

Lemma in_heap_texts_append (h : list node) (l : loc) (x n : node) (t : string) :
  h !! l = Some n -> is_text n = false ->
  In t (heap_texts (alter (content_append x) l h)) <->
  In t (heap_texts h) \/ In t (texts x).
Proof.
  intros Hl Hn.
  pose proof (take_drop_middle _ _ _ Hl) as Hsplit.
  assert (Hlen : length (take l h) = l)
    by (apply length_take_le, Nat.lt_le_incl, (lookup_lt_Some _ _ _ Hl)).
  rewrite <- Hsplit at 1 2. rewrite <- Hlen at 1. rewrite alter_middle.
  unfold heap_texts. rewrite !flat_map_app. simpl.
  rewrite (texts_content_append _ _ Hn), !in_app_iff. tauto.
Qed.

Lemma type_not_text (h : list node) (l : loc) (ty : string) :
  node_type <$> h !! l = Some ty -> ty <> "text" ->
  exists n, h !! l = Some n /\ is_text n = false.
Proof.
  intros H Hty. apply fmap_Some in H as (n & Hn & ->). exists n.
  split; [exact Hn|]. destruct n; simpl in *; congruence.
Qed.

Lemma line_text_blank (raw : string) :
  is_empty (rstrip raw) = true -> line_text raw = EmptyString.
Proof.
  unfold line_text. intros H. rewrite (strip_empty_line _ H).
  destruct (rstrip raw); [reflexivity | discriminate].
Qed.

Lemma process_line_texts (st st' : state) (raw : string) (t : string) :
  process_line st raw = Ok st' -> wf st ->
  In t (heap_texts (heap st')) <->
  In t (heap_texts (heap st)) \/ t = line_text raw.
Proof.
  unfold process_line. intros H (_ & Hl & Hp).
  assert (Hhead : forall line,
             In t (heap_texts (heap (heading_line line st))) <->
             In t (heap_texts (heap st)) \/ t = line).
  { intros line. rewrite heading_line_heap, heap_texts_alloc, in_app_iff.
    simpl. intuition congruence. }
  destruct (is_empty (rstrip raw)) eqn:E0.
  { inversion H. rewrite blank_line_heap, heap_texts_alloc, in_app_iff.
    rewrite (line_text_blank _ E0). simpl. intuition congruence. }
  unfold line_text.
  destruct (startswith (strip (rstrip raw)) "- ").
  { inversion H. rewrite bullet_line_heap.
    destruct (current_list st) as [l|].
    - destruct (type_not_text _ _ _ (Hl l eq_refl)) as (n & Hn & Hnt);
        [discriminate|].
      rewrite (in_heap_texts_append _ _ _ _ _ Hn Hnt). simpl.
      intuition congruence.
    - rewrite heap_texts_alloc, in_app_iff. simpl. intuition congruence. }
  destruct (is_section_header (rstrip raw)).
  { inversion H. apply Hhead. }
  destruct (is_numbered_section (rstrip raw)) as [[|]|e]; simpl in H;
    inversion H.
  - apply Hhead.
  - rewrite regular_line_heap. destruct (current_paragraph st) as [p|].
    + destruct (type_not_text _ _ _ (Hp p eq_refl)) as (n & Hn & Hnt);
        [discriminate|].
      rewrite (in_heap_texts_append _ _ _ _ _ Hn Hnt). simpl.
      intuition congruence.
    + rewrite heap_texts_alloc, in_app_iff. simpl. intuition congruence.
Qed.

Lemma process_lines_texts (lines : list string) (st st' : state) (t : string) :
  process_lines st lines = Ok st' -> wf st ->
  In t (heap_texts (heap st')) <->
  In t (heap_texts (heap st))
  \/ exists raw, In raw lines /\ t = line_text raw.
Proof.
  revert st. induction lines as [|raw rest IH]; intros st H Hwf; simpl in H.
  - inversion H. subst. split; [auto | intros [?|(? & [] & _)]; assumption].
  - destruct (process_line st raw) as [st1|e] eqn:E; simpl in H;
      [|discriminate].
    rewrite (IH _ H (process_line_wf _ _ _ E Hwf)).
    rewrite (process_line_texts _ _ _ _ E Hwf). simpl. split.
    + intros [[?| ->]|(r & Hr & ->)]; eauto.
    + intros [?|(r & [<-|Hr] & ->)]; eauto.
Qed.

Lemma in_option_list (o : option loc) (l : loc) :
  In l (option_list o) <-> o = Some l.
Proof. destruct o; simpl; intuition congruence. Qed.

Lemma process_line_referenced (st st' : state) (raw : string) :
  process_line st raw = Ok st' -> all_referenced st -> all_referenced st'.
Proof.
  unfold process_line, all_referenced. intros H Hr.
  assert (Hhead : forall line l,
             l < length (heap (heading_line line st)) ->
             In l (doc_content (heading_line line st))
             \/ current_list (heading_line line st) = Some l
             \/ current_paragraph (heading_line line st) = Some l).
  { intros line l. rewrite heading_line_spec. simpl.
    rewrite length_app, !in_app_iff, !in_option_list. simpl. intros Hlt.
    destruct (decide (l < length (heap st))) as [Hl|Hl].
    - destruct (Hr l Hl) as [?|[?|?]]; auto.
    - left. do 3 right. left. lia. }
  destruct (is_empty (rstrip raw)).
  { inversion H. intros l. rewrite blank_line_spec. simpl.
    rewrite length_app, !in_app_iff, !in_option_list. simpl. intros Hlt.
    destruct (decide (l < length (heap st))) as [Hl|Hl].
    - destruct (Hr l Hl) as [?|[?|?]]; auto.
    - left. do 3 right. left. lia. }
  destruct (startswith (strip (rstrip raw)) "- ").
  { inversion H. intros l. rewrite bullet_line_spec. simpl.
    destruct (current_list st) as [cl|] eqn:Ecl; simpl.
    - rewrite length_alter. intros Hl.
      destruct (Hr l Hl) as [?|[?|?]]; auto.
    - rewrite length_app. simpl. intros Hlt.
      destruct (decide (l < length (heap st))) as [Hl|Hl].
      + destruct (Hr l Hl) as [?|[?|?]]; auto; congruence.
      + right. left. f_equal. lia. }
  destruct (is_section_header (rstrip raw)).
  { inversion H. apply Hhead. }
  destruct (is_numbered_section (rstrip raw)) as [[|]|e]; simpl in H;
    inversion H.
  - apply Hhead.
  - intros l. rewrite regular_line_spec. simpl.
    rewrite in_app_iff, in_option_list.
    destruct (current_paragraph st) as [cp|] eqn:Ecp; simpl.
    + rewrite length_alter. intros Hl.
      destruct (Hr l Hl) as [?|[?|?]]; auto.
    + rewrite length_app. simpl. intros Hlt.
      destruct (decide (l < length (heap st))) as [Hl|Hl].
      * destruct (Hr l Hl) as [?|[?|?]]; auto; congruence.
      * right. right. f_equal. lia.
Qed.

Lemma process_lines_referenced (lines : list string) (st st' : state) :
  process_lines st lines = Ok st' -> all_referenced st -> all_referenced st'.
Proof.
  revert st. induction lines as [|raw rest IH]; intros st H Hr; simpl in H.
  - inversion H. subst. exact Hr.
  - destruct (process_line st raw) as [st1|e] eqn:E; simpl in H;
      [|discriminate].
    apply (IH _ H). exact (process_line_referenced _ _ _ E Hr).
Qed.

Lemma init_referenced : all_referenced init.
Proof. intros l Hl. simpl in Hl. lia. Qed.

(** At the return every object of the heap is in the document, and the
    document holds nothing else. *)
Lemma read_doc_texts (st : state) (t : string) :
  wf st -> all_referenced st ->
  In t (texts (read_doc (finish st))) <-> In t (heap_texts (heap st)).
Proof.
  intros Hwf Hr. pose proof (finish_wf _ Hwf) as (Hd & _).
  unfold read_doc. simpl. rewrite in_flat_map, in_heap_texts.
  rewrite finish_heap in *. split.
  - intros (n & Hn & Ht). apply in_map_iff in Hn as (l & <- & Hl).
    rewrite List.Forall_forall in Hd. specialize (Hd l Hl).
    exists l, (heap st !!! l). split; [|exact Ht].
    apply list_lookup_lookup_total_lt. exact Hd.
  - intros (l & n & Hl & Ht). exists n. split; [|exact Ht].
    apply in_map_iff. exists l. split.
    + apply list_lookup_total_correct. exact Hl.
    + rewrite finish_spec. simpl. rewrite !in_app_iff, !in_option_list.
      destruct (Hr l (lookup_lt_Some _ _ _ Hl)) as [?|[?|?]]; auto.
Qed.

Lemma convert_texts_iff (s : string) (d : node) (t : string) :
  _convert_to_prosemirror s = Ok d ->
  In t (texts d) <->
  exists raw, In raw (split newline s) /\ t = line_text raw.
Proof.
  unfold _convert_to_prosemirror. intros H.
  destruct (process_lines init (split newline s)) as [st|e] eqn:E;
    simpl in H; [|discriminate].
  injection H as <-.
  rewrite (read_doc_texts _ _ (process_lines_wf _ _ _ E init_wf)
             (process_lines_referenced _ _ _ E init_referenced)).
  rewrite (process_lines_texts _ _ _ _ E init_wf). simpl. tauto.
Qed.

(** X8.  The text leaves of a document the converter returns are exactly
    the texts of the lines of the input: each line puts its text into the
    document (the trimmed line, the bullet's text for a bullet line, the
    empty string for a blank line), and no other text is in it.  No line is
    lost and none is made up. *)
Theorem convert_texts (s : string) (d : node) (t : string) :
  _convert_to_prosemirror s = Ok d ->
  In t (texts d) <->
  exists raw, In raw (split newline s) /\ t = line_text raw.
Proof. exact (convert_texts_iff s d t). Qed.

Lemma convert_texts_witness :
  In "b c" (texts (Doc [BulletList [ListItem [Paragraph [Text "b c"]]];
                        Paragraph [Text "x"]]))
  <-> exists raw, In raw (split newline ("x " +:+ nl +:+ "  - b c"))
                  /\ "b c" = line_text raw.
Proof.
  apply (convert_texts ("x " +:+ nl +:+ "  - b c")). reflexivity.
Defined.

(** ** Text leaves are trimmed single lines *)

Lemma split_no_sep (sep : ascii) (s : string) :
  Forall (fun l => contains sep l = false) (split sep s).
Proof.
  induction s as [|c s IH]; simpl.
  - repeat constructor.
  - destruct (Ascii.eqb c sep) eqn:E.
    + constructor; [reflexivity | exact IH].
    + destruct (split sep s) as [|l ls].
      * repeat constructor. simpl. rewrite E. reflexivity.
      * inversion IH; subst. constructor; [|assumption].
        simpl. rewrite E. assumption.
Qed.

Lemma contains_rstrip (c : ascii) (s : string) :
  contains c s = false -> contains c (rstrip s) = false.
Proof.
  induction s as [|a s IH]; [reflexivity|].
  intros H. simpl in H. apply orb_false_iff in H as [Ha Hs].
  rewrite rstrip_cons. specialize (IH Hs).
  destruct (rstrip s) as [|b r].
  - destruct (isspace a); simpl; [reflexivity|]. rewrite Ha. reflexivity.
  - change (contains c (String a (String b r)))
      with (Ascii.eqb a c || contains c (String b r)).
    rewrite Ha, IH. reflexivity.
Qed.

Lemma contains_lstrip (c : ascii) (s : string) :
  contains c s = false -> contains c (lstrip s) = false.
Proof.
  induction s as [|a s IH]; [reflexivity|].
  intros H. simpl lstrip. destruct (isspace a); [|exact H].
  simpl in H. apply orb_false_iff in H as [_ Hs]. exact (IH Hs).
Qed.

Lemma contains_slice_from (c : ascii) (n : nat) (s : string) :
  contains c s = false -> contains c (slice_from n s) = false.
Proof.
  revert s. induction n as [|n IH]; intros s H; [exact H|].
  destruct s as [|a s]; [reflexivity|].
  simpl in H. apply orb_false_iff in H as [_ Hs]. exact (IH _ Hs).
Qed.

Lemma rstrip_tail (c : ascii) (s : string) :
  rstrip (String c s) = String c s -> rstrip s = s.
Proof.
  intros H. apply rstrip_fixed_cons in H. destruct s; [reflexivity | exact H].
Qed.

Lemma rstrip_lstrip (s : string) : rstrip s = s -> rstrip (lstrip s) = lstrip s.
Proof.
  induction s as [|c s IH]; [reflexivity|].
  intros H. simpl lstrip. destruct (isspace c); [|exact H].
  exact (IH (rstrip_tail _ _ H)).
Qed.

Lemma rstrip_slice_from (n : nat) (s : string) :
  rstrip s = s -> rstrip (slice_from n s) = slice_from n s.
Proof.
  revert s. induction n as [|n IH]; intros s H; [exact H|].
  destruct s as [|c s]; [reflexivity|].
  exact (IH _ (rstrip_tail _ _ H)).
Qed.

Lemma line_text_trimmed (raw : string) :
  rstrip (line_text raw) = line_text raw.
Proof.
  unfold line_text, strip.
  destruct (startswith (lstrip (rstrip (rstrip raw))) "- ").
  - apply rstrip_slice_from, rstrip_lstrip. rewrite !rstrip_idempotent.
    reflexivity.
  - apply rstrip_idempotent.
Qed.

Lemma line_text_no_char (c : ascii) (raw : string) :
  contains c raw = false -> contains c (line_text raw) = false.
Proof.
  intros H. unfold line_text, strip.
  destruct (startswith (lstrip (rstrip (rstrip raw))) "- ").
  - apply contains_slice_from, contains_lstrip.
    do 2 apply contains_rstrip. exact H.
  - apply contains_rstrip. exact H.
Qed.

(** X9.  No text leaf of a document the converter returns ends in
    whitespace, and none contains a line break: every leaf is a trimmed
    piece of one line of the input. *)
Theorem convert_texts_trimmed (s : string) (d : node) (t : string) :
  _convert_to_prosemirror s = Ok d -> In t (texts d) ->
  rstrip t = t /\ contains newline t = false.
Proof.
  intros H Ht. apply (convert_texts_iff _ _ _ H) in Ht as (raw & Hraw & ->).
  split; [apply line_text_trimmed|]. apply line_text_no_char.
  pose proof (split_no_sep newline s) as Hs.
  rewrite List.Forall_forall in Hs. exact (Hs raw Hraw).
Qed.

Lemma convert_texts_trimmed_witness :
  rstrip "b c" = "b c" /\ contains newline "b c" = false.
Proof.
  apply (convert_texts_trimmed ("x " +:+ nl +:+ "  - b c  ")
           (Doc [BulletList [ListItem [Paragraph [Text "b c"]]];
                 Paragraph [Text "x"]])).
  - reflexivity.
  - simpl. left. reflexivity.
Defined.

(** * Stamping twice *)

Lemma stamp_stamp (now1 now2 : string) (m : dict) :
  stamp now2 (stamp now1 m) = stamp now2 m.
Proof.
  unfold stamp. apply map_eq. intros k.
  destruct (decide (k = "updated_by")) as [->|H1];
    [rewrite !lookup_insert_eq; reflexivity|].
  destruct (decide (k = "last_updated")) as [->|H2];
    repeat first [ rewrite lookup_insert_eq
                 | rewrite lookup_insert_ne by congruence ];
    reflexivity.
Qed.

Lemma add_metadata_dict (now : string) (data m : dict) :
  data !! "metadata" = Some (VDict m) ->
  add_metadata now data = Ok (<["metadata" := VDict (stamp now m)]> data).
Proof. intros H. unfold add_metadata. rewrite H. simpl. rewrite H. reflexivity. Qed.

Lemma add_metadata_none (now : string) (data : dict) :
  data !! "metadata" = None ->
  add_metadata now data = Ok (<["metadata" := VDict (stamp now ∅)]> data).
Proof.
  intros H. unfold add_metadata. rewrite H, lookup_insert_eq. simpl.
  rewrite insert_insert_eq. reflexivity.
Qed.

Lemma add_metadata_returns (now : string) (data d1 : dict) :
  add_metadata now data = Ok d1 ->
  exists m, d1 = <["metadata" := VDict (stamp now m)]> data
            /\ (data !! "metadata" = Some (VDict m)
                \/ data !! "metadata" = None /\ m = ∅).
Proof.
  intros H. destruct (data !! "metadata") as [v|] eqn:E.
  - destruct v as [| | | | |m];
      try (unfold add_metadata in H; rewrite E in H; simpl in H;
           rewrite E in H; discriminate).
    rewrite (add_metadata_dict _ _ _ E) in H. injection H as <-.
    exists m. auto.
  - rewrite (add_metadata_none _ _ E) in H. injection H as <-.
    exists ∅. auto.
Qed.

(** X10.  Stamping a dict that [add_metadata] has returned never raises, and
    the two calls together give what the second call alone gives on the
    original dict: the later time replaces the earlier one and nothing else
    changes. *)
Theorem add_metadata_twice (now1 now2 : string) (data d1 : dict) :
  add_metadata now1 data = Ok d1 ->
  add_metadata now2 d1 = add_metadata now2 data
  /\ exists d2, add_metadata now2 d1 = Ok d2.
Proof.
  intros H. apply add_metadata_returns in H as (m & -> & Hm).
  assert (E : add_metadata now2 (<["metadata" := VDict (stamp now1 m)]> data)
              = Ok (<["metadata" := VDict (stamp now2 m)]> data)).
  { rewrite (add_metadata_dict now2 _ (stamp now1 m))
      by apply lookup_insert_eq.
    rewrite stamp_stamp, insert_insert_eq. reflexivity. }
  rewrite E. split; [|eauto].
  destruct Hm as [Hm|[Hm ->]].
  - rewrite (add_metadata_dict _ _ _ Hm). reflexivity.
  - rewrite (add_metadata_none _ _ Hm). reflexivity.
Qed.

Lemma add_metadata_twice_witness :
  add_metadata "2024-01-02 09:00:00"
    (<["metadata" := VDict (stamp "2024-01-01 10:00:00" ∅)]>
       {["title" := VStr "Notes"]}) =
  add_metadata "2024-01-02 09:00:00" {["title" := VStr "Notes"]}
  /\ exists d2,
       add_metadata "2024-01-02 09:00:00"
         (<["metadata" := VDict (stamp "2024-01-01 10:00:00" ∅)]>
            {["title" := VStr "Notes"]}) = Ok d2.
Proof.
  apply (add_metadata_twice "2024-01-01 10:00:00" "2024-01-02 09:00:00"
           {["title" := VStr "Notes"]}).
  reflexivity.
Defined.

(** * The calls to the service *)

Import SliteRequests.

Ltac unfold_calls :=
  unfold run_note_call, run_entity_call, create_note, update_note, get_note,
    search_notes, delete_note, delete_folder, delete_document, delete,
    create_folder, update_folder, create_document, update_document,
    folder_call, document_call, report_failure, log_and_reraise,
    log_and_reraise_escaped, network_error, try_except,
    try_except_Exception, mbind, send, convert, response_json,
    SliteRequests.add_metadata, value_get, value_set, fire,
    SliteRequests.logger_error, logger_note, ret, throw, exception in *.

(** One case distinction on what the hypothesis [H] still branches on. *)
Ltac split_call H :=
  match type of H with
  | context [match _convert_to_prosemirror ?s with _ => _ end] =>
      destruct (_convert_to_prosemirror s) eqn:?
  | context [match ?n ?rq with Answers _ => _ | Fails _ => _ end] =>
      destruct (n rq) eqn:?
  | context [if ?b then _ else _] => destruct b eqn:?
  | context [match json ?r with _ => _ end] => destruct (json r) eqn:?
  | context [match raise_for_status ?r with _ => _ end] =>
      destruct (raise_for_status r) eqn:?
  end; simpl in H.

Lemma convert_raises_single_digit (s : string) :
  (exists raw c, In raw (split newline s)
                 /\ rstrip raw = String c EmptyString /\ isdigit c = true) ->
  _convert_to_prosemirror s = Raise IndexError.
Proof.
  intros Hex. unfold _convert_to_prosemirror.
  assert (process_lines init (split newline s) = Raise IndexError) as ->
    by (apply process_lines_raises; auto).
  reflexivity.
Qed.

(** X11.  A method for notes returns a value only when the service answered
    with the status the method takes for success (200 or 201 for
    [create_note], 200 for [update_note], [get_note] and [search_notes], 204
    for the three deletions): then exactly one request was sent, nothing
    was logged as an error, and the value is the answer's JSON body, or the
    fixed success dict for a deletion.  So a 201 answer to [update_note] and
    a 200 answer to a deletion are errors. *)
Theorem note_call_returns_only_on_success
    (net : request -> http_outcome) (self : api) (c : note_call)
    (w w' : world) (v : value) :
  run_note_call net self c w = (w', Returned v) ->
  exists rq r,
    sent w' = sent w ++ [rq] /\ net rq = Answers r
    /\ succeeds c (status_code r) = true
    /\ fx w' = fx w
    /\ match c with
       | DeleteNote id =>
           v = VDict (<["status" := VStr "success"]>
                        (<["message" :=
                             VStr ("Note " +:+ id
                                   +:+ " deleted successfully")]> ∅))
       | DeleteFolder id =>
           v = VDict (<["status" := VStr "success"]>
                        (<["message" :=
                             VStr ("Folder " +:+ id
                                   +:+ " deleted successfully")]> ∅))
       | DeleteDocument id =>
           v = VDict (<["status" := VStr "success"]>
                        (<["message" :=
                             VStr ("Document " +:+ id
                                   +:+ " deleted successfully")]> ∅))
       | _ => json r = JsonValue v
       end.
Proof.
  intros H. destruct c; unfold_calls; simpl in H; repeat split_call H;
    try discriminate; injection H as <- <-; simpl;
    (eexists _, _; split; [reflexivity|]; split; [eassumption|]);
    auto.
Qed.

Lemma note_call_returns_only_on_success_witness :
  exists rq r,
    sent {| fx := SliteEventHandler.no_effects;
            sent := [{| method := DELETE;
                        url := "https://api.slite.com/v1/notes/n1";
                        req_headers := headers (mkApi "k" SliteEventHandler.__init__);
                        params := []; json_body := None |}];
            notes := [] |}
    = sent quiet_world ++ [rq]
    /\ (fun _ => Answers (mkResponse 204 "" (JsonValue VNone) "")) rq
       = Answers r
    /\ succeeds (DeleteNote "n1") (status_code r) = true
    /\ SliteEventHandler.no_effects = fx quiet_world
    /\ VDict (<["status" := VStr "success"]>
                (<["message" := VStr "Note n1 deleted successfully"]> ∅))
       = VDict (<["status" := VStr "success"]>
                  (<["message" :=
                       VStr ("Note " +:+ "n1"
                             +:+ " deleted successfully")]> ∅)).
Proof.
  apply (note_call_returns_only_on_success
           (fun _ => Answers (mkResponse 204 "" (JsonValue VNone) ""))
           (mkApi "k" SliteEventHandler.__init__) (DeleteNote "n1")
           quiet_world).
  reflexivity.
Defined.

(** Case distinctions on the goal, for a call whose network is known. *)
Ltac split_goal :=
  match goal with
  | |- context [match _convert_to_prosemirror ?s with _ => _ end] =>
      destruct (_convert_to_prosemirror s) eqn:?
  | |- context [if ?b then _ else _] => destruct b eqn:?
  | |- context [match json ?r with _ => _ end] => destruct (json r) eqn:?
  | |- context [match raise_for_status ?r with _ => _ end] =>
      destruct (raise_for_status r) eqn:?
  end; simpl.

(** X12.  No method for notes calls an event handler, and each sends at
    most one request, whatever the service does. *)
Theorem note_calls_fire_no_event
    (net : request -> http_outcome) (self : api) (c : note_call) (w : world) :
  SliteEventHandler.called (fx (fst (run_note_call net self c w)))
  = SliteEventHandler.called (fx w)
  /\ (sent (fst (run_note_call net self c w)) = sent w
      \/ exists rq, sent (fst (run_note_call net self c w)) = sent w ++ [rq]).
Proof.
  destruct c; unfold_calls; simpl;
    repeat first
      [ split_goal
      | match goal with
        | |- context [match ?n ?rq with Answers _ => _ | Fails _ => _ end] =>
            destruct (n rq) eqn:?; simpl
        end ];
    (split; [reflexivity | first [left; reflexivity | right; eauto]]).
Qed.

(** X13.  When the text handed to [create_note] or [update_note] has a line
    that, trimmed, is a single digit, the converter's [IndexError] leaves
    the method as it is: the [except] clause for request errors does not
    catch it, no request is sent and nothing is logged. *)
Theorem note_not_sent_when_converter_raises
    (net : request -> http_outcome) (self : api) (c : note_call)
    (content : string) (w : world) :
  call_content c = Some content ->
  (exists raw ch, In raw (split newline content)
                  /\ rstrip raw = String ch EmptyString
                  /\ isdigit ch = true) ->
  run_note_call net self c w = (w, Raised (of_exn IndexError)).
Proof.
  intros Hc Hex. apply convert_raises_single_digit in Hex.
  destruct c; try discriminate; injection Hc as ->;
    unfold_calls; simpl; rewrite Hex; reflexivity.
Qed.

Lemma note_not_sent_when_converter_raises_witness :
  run_note_call (fun _ => Answers (mkResponse 200 "" (JsonValue VNone) ""))
    (mkApi "k" SliteEventHandler.__init__)
    (UpdateNote "n1" "Agenda" ("Items" +:+ nl +:+ "3")) quiet_world
  = (quiet_world, Raised (of_exn IndexError)).
Proof.
  apply (note_not_sent_when_converter_raises
           (fun _ => Answers (mkResponse 200 "" (JsonValue VNone) ""))
           (mkApi "k" SliteEventHandler.__init__)
           (UpdateNote "n1" "Agenda" ("Items" +:+ nl +:+ "3"))
           ("Items" +:+ nl +:+ "3") quiet_world eq_refl).
  exists "3", "3"%char. split; [right; left; reflexivity|].
  split; reflexivity.
Defined.

(** X14.  When the text converts, [create_note] sends one POST to
    [/v1/notes] and [update_note] one PATCH to [/v1/notes/<id>], each with
    the instance's headers and the JSON body of the title and the converted
    document, whatever the service then answers. *)
Theorem note_request_carries_document
    (net : request -> http_outcome) (self : api)
    (note_id title content : string) (doc : node) (w : world) :
  _convert_to_prosemirror content = Ok doc ->
  sent (fst (create_note net self title content w))
  = sent w ++ [{| method := POST;
                  url := "https://api.slite.com/v1/notes";
                  req_headers := headers self; params := [];
                  json_body :=
                    Some (<["title" := VStr title]>
                            (<["content" := to_value doc]> ∅)) |}]
  /\ sent (fst (update_note net self note_id title content w))
     = sent w ++ [{| method := PATCH;
                     url := "https://api.slite.com/v1/notes/" +:+ note_id;
                     req_headers := headers self; params := [];
                     json_body :=
                       Some (<["title" := VStr title]>
                               (<["content" := to_value doc]> ∅)) |}].
Proof.
  intros H. split; unfold_calls; simpl; rewrite H; simpl;
    match goal with
    | |- context [match ?n ?rq with Answers _ => _ | Fails _ => _ end] =>
        destruct (n rq) eqn:?; simpl
    end;
    repeat split_goal; reflexivity.
Qed.

Lemma note_request_carries_document_witness :
  sent (fst (create_note
               (fun _ => Answers (mkResponse 201 "" (JsonValue VNone) ""))
               (mkApi "k" SliteEventHandler.__init__) "T" "- a"
               quiet_world))
  = sent quiet_world
    ++ [{| method := POST; url := "https://api.slite.com/v1/notes";
           req_headers := headers (mkApi "k" SliteEventHandler.__init__);
           params := [];
           json_body :=
             Some (<["title" := VStr "T"]>
                     (<["content" :=
                          to_value
                            (Doc [BulletList
                                    [ListItem [Paragraph [Text "a"]]]])]>
                        ∅)) |}].
Proof.
  apply (proj1 (note_request_carries_document
                  (fun _ => Answers (mkResponse 201 "" (JsonValue VNone) ""))
                  (mkApi "k" SliteEventHandler.__init__) "n1" "T" "- a"
                  (Doc [BulletList [ListItem [Paragraph [Text "a"]]]])
                  quiet_world eq_refl)).
Defined.

(** X15.  When the call of [requests] raises, a method for notes whose text
    converted logs one error line with its own words and raises
    [Exception("Network error: ...")] if the exception is a
    [RequestException]; any other exception leaves the method as it is and
    no error line is logged.  No handler is called either way. *)
Theorem note_call_network_error
    (net : request -> http_outcome) (self : api) (c : note_call)
    (e : pyexc) (w : world) :
  (forall content, call_content c = Some content ->
                   exists doc, _convert_to_prosemirror content = Ok doc) ->
  (forall rq, net rq = Fails e) ->
  snd (run_note_call net self c w)
  = (if is_RequestException (cls e)
     then Raised (exception ("Network error: " +:+ msg e))
     else Raised e)
  /\ fx (fst (run_note_call net self c w))
     = (if is_RequestException (cls e)
        then SliteEventHandler.logger_error (call_error_prefix c +:+ msg e)
               (fx w)
        else fx w).
Proof.
  intros Hc Hnet.
  destruct c; unfold_calls; simpl;
    try (destruct (Hc _ eq_refl) as [doc ->]; simpl);
    rewrite Hnet; simpl; destruct (is_RequestException (cls e)); simpl;
    split; reflexivity.
Qed.

Lemma note_call_network_error_witness :
  snd (run_note_call
         (fun _ => Fails {| cls := CRequestException; msg := "timed out" |})
         (mkApi "k" SliteEventHandler.__init__) (GetNote "n1") quiet_world)
  = Raised (exception "Network error: timed out")
  /\ fx (fst (run_note_call
                (fun _ => Fails {| cls := CRequestException;
                                   msg := "timed out" |})
                (mkApi "k" SliteEventHandler.__init__) (GetNote "n1")
                quiet_world))
     = SliteEventHandler.logger_error "Error getting note: timed out"
         (fx quiet_world).
Proof.
  apply (note_call_network_error
           (fun _ => Fails {| cls := CRequestException; msg := "timed out" |})
           (mkApi "k" SliteEventHandler.__init__) (GetNote "n1")
           {| cls := CRequestException; msg := "timed out" |} quiet_world).
  - discriminate.
  - reflexivity.
Defined.

(** X16.  Whatever the method for notes, a 429 answer raises
    [Exception("Rate limit exceeded")] and a 401 answer
    [Exception("Invalid API key")]: one request was sent, no error line is
    logged and no handler is called. *)
Theorem note_call_rejected
    (net : request -> http_outcome) (self : api) (c : note_call)
    (r : response) (w : world) :
  (forall content, call_content c = Some content ->
                   exists doc, _convert_to_prosemirror content = Ok doc) ->
  (forall rq, net rq = Answers r) ->
  status_code r = 429%Z \/ status_code r = 401%Z ->
  snd (run_note_call net self c w)
  = Raised (exception (if (status_code r =? 429)%Z
                       then "Rate limit exceeded" else "Invalid API key"))
  /\ fx (fst (run_note_call net self c w)) = fx w
  /\ exists rq, sent (fst (run_note_call net self c w)) = sent w ++ [rq].
Proof.
  intros Hc Hnet Hs.
  destruct c; unfold_calls; unfold created_or_ok; simpl;
    try (destruct (Hc _ eq_refl) as [doc ->]; simpl);
    rewrite Hnet; simpl;
    destruct Hs as [-> | ->]; simpl; eauto.
Qed.

Lemma note_call_rejected_witness :
  snd (run_note_call
         (fun _ => Answers (mkResponse 401 "no" (JsonValue VNone) ""))
         (mkApi "k" SliteEventHandler.__init__) (SearchNotes "q")
         quiet_world)
  = Raised (exception "Invalid API key")
  /\ fx (fst (run_note_call
                (fun _ => Answers (mkResponse 401 "no" (JsonValue VNone) ""))
                (mkApi "k" SliteEventHandler.__init__) (SearchNotes "q")
                quiet_world))
     = fx quiet_world
  /\ exists rq,
       sent (fst (run_note_call
                    (fun _ => Answers
                                (mkResponse 401 "no" (JsonValue VNone) ""))
                    (mkApi "k" SliteEventHandler.__init__) (SearchNotes "q")
                    quiet_world))
       = sent quiet_world ++ [rq].
Proof.
  apply (note_call_rejected
           (fun _ => Answers (mkResponse 401 "no" (JsonValue VNone) ""))
           (mkApi "k" SliteEventHandler.__init__) (SearchNotes "q")
           (mkResponse 401 "no" (JsonValue VNone) "") quiet_world).
  - discriminate.
  - reflexivity.
  - right. reflexivity.
Defined.

(** ** Folders and documents *)

Lemma entity_data_fresh (c : entity_call) : entity_data c !! "metadata" = None.
Proof.
  destruct c as [? ?|? ? ?|? ? f|? ? ? f]; simpl;
    try destruct (given f); reflexivity.
Qed.

Lemma entity_data_stamped (now : string) (c : entity_call) :
  SliteAPI.add_metadata now (entity_data c)
  = Ok (<["metadata" := VDict (stamp now ∅)]> (entity_data c)).
Proof. apply add_metadata_none, entity_data_fresh. Qed.

(** Unfolds a method for folders or documents and works the stamp out. *)
Ltac open_entity now c :=
  let E := fresh "E" in
  pose proof (entity_data_stamped now c) as E;
  cbn [entity_data] in E;
  unfold run_entity_call, create_folder, update_folder, create_document,
    update_document, folder_call, document_call, entity_request,
    entity_payload, entity_error_prefix, event_of,
    SliteRequests.add_metadata;
  cbn [entity_data]; cbv zeta;
  unfold try_except_Exception, mbind at 1;
  rewrite E; clear E;
  unfold_calls; cbv beta iota;
  rewrite ?lookup_insert_eq; cbn [default from_option id].

Ltac open_entity_call now c :=
  destruct c as [name description | folder_id name description
                 | title markdown_content folder_id
                 | doc_id title markdown_content folder_id];
  [ open_entity now (CreateFolder name description)
  | open_entity now (UpdateFolder folder_id name description)
  | open_entity now (CreateDocument title markdown_content folder_id)
  | open_entity now (UpdateDocument doc_id title markdown_content folder_id) ].

(** One case distinction of a method, without any other reduction. *)
Ltac split_entity :=
  match goal with
  | |- context [match ?n ?rq with Answers _ => _ | Fails _ => _ end] =>
      destruct (n rq) eqn:?
  | |- context [if created_or_ok ?r then _ else _] =>
      destruct (created_or_ok r) eqn:?
  | |- context [match json ?r with _ => _ end] => destruct (json r) eqn:?
  | |- context [match raise_for_status ?r with _ => _ end] =>
      destruct (raise_for_status r) eqn:?
  | |- context [if is_Exception ?c then _ else _] =>
      destruct (is_Exception c) eqn:?
  | |- context [match ?v with VDict _ => _ | _ => _ end] =>
      is_var v; destruct v
  | |- context [match SliteEventHandler.run_handlers ?c ?n ?p ?l ?i ?s ?f
                with _ => _ end] =>
      let fx' := fresh "fx'" in let st' := fresh "st'" in
      let e := fresh "e" in
      destruct (SliteEventHandler.run_handlers c n p l i s f)
        as [[fx' st'] [[|e]|]] eqn:?
  | |- context [if SliteEventHandler.is_Exception ?e then _ else _] =>
      destruct (SliteEventHandler.is_Exception e) eqn:?
  | |- context [match SliteEventHandler.str ?e with _ => _ end] =>
      destruct (SliteEventHandler.str e) eqn:?
  end; cbv beta iota; cbn [is_Exception cls msg fx sent notes].

Ltac open_triggers :=
  unfold SliteEventHandler.trigger_folder_created,
    SliteEventHandler.trigger_folder_updated,
    SliteEventHandler.trigger_document_created,
    SliteEventHandler.trigger_document_updated,
    SliteEventHandler.trigger, SliteEventHandler.handlers_of in *;
  cbv beta iota in *.

(** X17.  A method for folders or documents sends exactly one request,
    whatever the service does: the method's verb and endpoint, the
    instance's headers, and as JSON body the dict of the arguments with the
    stamp of [add_metadata] under ["metadata"] (which never raises here).
    A folder's body has ["isFolder"]; a document's body has
    ["parentNoteId"] exactly when [folder_id] is a non-empty string. *)
Theorem entity_call_sends_stamped_request
    (call : handler_call) (fuel : nat) (now : string)
    (net : request -> http_outcome) (self : api) (c : entity_call)
    (w : world) :
  sent (fst (run_entity_call call fuel now net self c w))
  = sent w ++ [entity_request now self c]
  /\ exists body m,
       json_body (entity_request now self c) = Some body
       /\ body !! "metadata" = Some (VDict m)
       /\ m !! "updated_by" = Some (VStr "Slite Integration Agent")
       /\ m !! "last_updated" = Some (VStr now)
       /\ body !! "parentNoteId"
          = match c with
            | CreateDocument _ _ f | UpdateDocument _ _ _ f =>
                VStr <$> given f
            | _ => None
            end
       /\ body !! "isFolder"
          = match c with
            | CreateFolder _ _ | UpdateFolder _ _ _ => Some (VBool true)
            | _ => None
            end.
Proof.
  split.
  - open_entity_call now c; open_triggers; repeat split_entity; reflexivity.
  - eexists _, _. split; [reflexivity|].
    split; [apply lookup_insert_eq|]. split; [apply stamp_updated_by|].
    split; [reflexivity|].
    destruct c as [? ?|? ? ?|? ? f|? ? ? f]; simpl;
      try destruct (given f); split; reflexivity.
Qed.

(** X18.  A method for folders or documents calls a handler only when the
    service answered 200 or 201 with a JSON dict: in every other case
    (another status, a failed request, a body that is not JSON or not a
    dict) no handler is called. *)
Theorem entity_event_only_on_success
    (call : handler_call) (fuel : nat) (now : string)
    (net : request -> http_outcome) (self : api) (c : entity_call)
    (w : world) :
  SliteEventHandler.called
    (fx (fst (run_entity_call call fuel now net self c w)))
  = SliteEventHandler.called (fx w)
  \/ exists r result,
       net (entity_request now self c) = Answers r
       /\ created_or_ok r = true
       /\ json r = JsonValue (VDict result).
Proof.
  open_entity_call now c; open_triggers; repeat split_entity;
    first [ left; reflexivity
          | right; eexists _, _; split; [reflexivity|];
            split; eassumption ].
Qed.



(** X20.  When the service answers with a status other than 200 and 201, a
    method for folders or documents logs the answer's text and calls
    [raise_for_status]: for a status from 400 to 599 the [HTTPError] is
    logged as well and raised as it is (it is not wrapped in a plain
    [Exception], unlike in the methods for notes); for any other status
    (204, 302, ...) the method returns [None] without raising.  No handler
    is called. *)
Theorem entity_call_failure_status
    (call : handler_call) (fuel : nat) (now : string)
    (net : request -> http_outcome) (self : api) (c : entity_call)
    (w : world) (r : response) :
  net (entity_request now self c) = Answers r ->
  created_or_ok r = false ->
  run_entity_call call fuel now net self c w
  = if ((400 <=? status_code r) && (status_code r <? 600))%Z
    then ({| fx := SliteEventHandler.logger_error
                     (entity_error_prefix c +:+ http_error_msg r)
                     (SliteEventHandler.logger_error
                        (entity_error_prefix c +:+ text r) (fx w));
             sent := sent w ++ [entity_request now self c];
             notes := notes w |},
          Raised {| cls := CRequestException; msg := http_error_msg r |})
    else ({| fx := SliteEventHandler.logger_error
                     (entity_error_prefix c +:+ text r) (fx w);
             sent := sent w ++ [entity_request now self c];
             notes := notes w |},
          Returned VNone).
Proof.
  open_entity_call now c; unfold raise_for_status; intros Hnet Hok;
    rewrite Hnet; cbv beta iota; rewrite Hok; cbv beta iota;
    destruct ((400 <=? status_code r) && (status_code r <? 600))%Z;
    reflexivity.
Qed.

Lemma entity_call_failure_status_witness :
  run_entity_call sample_call 0 "2024-01-01 10:00:00"
    (fun _ => Answers (mkResponse 204 "" (JsonValue VNone) ""))
    (mkApi "k" SliteEventHandler.__init__)
    (UpdateDocument "d1" "T" "text" None) quiet_world
  = ({| fx := SliteEventHandler.logger_error "Error updating document: "
                SliteEventHandler.no_effects;
        sent := [entity_request "2024-01-01 10:00:00"
                   (mkApi "k" SliteEventHandler.__init__)
                   (UpdateDocument "d1" "T" "text" None)];
        notes := [] |},
     Returned VNone).
Proof.
  apply (entity_call_failure_status sample_call 0 "2024-01-01 10:00:00"
           (fun _ => Answers (mkResponse 204 "" (JsonValue VNone) ""))
           (mkApi "k" SliteEventHandler.__init__)
           (UpdateDocument "d1" "T" "text" None) quiet_world
           (mkResponse 204 "" (JsonValue VNone) "") eq_refl eq_refl).
Defined.

(** X21.  When the service answers 200 or 201 with JSON that is not a dict,
    a method for folders raises the [AttributeError] of [result.get] and a
    method for documents the [TypeError] of the item assignment; the error
    is logged and no handler is called, although the request was sent. *)
Theorem entity_call_json_not_dict
    (call : handler_call) (fuel : nat) (now : string)
    (net : request -> http_outcome) (self : api) (c : entity_call)
    (w : world) (r : response) (v : value) :
  net (entity_request now self c) = Answers r ->
  created_or_ok r = true ->
  json r = JsonValue v ->
  is_dict v = false ->
  run_entity_call call fuel now net self c w
  = ({| fx := SliteEventHandler.logger_error
                (entity_error_prefix c +:+ msg (not_a_dict c v)) (fx w);
        sent := sent w ++ [entity_request now self c];
        notes := notes w |},
     Raised (not_a_dict c v)).
Proof.
  open_entity_call now c; unfold not_a_dict; intros Hnet Hok Hjson Hv;
    rewrite Hnet; cbv beta iota; rewrite Hok, Hjson; cbv beta iota;
    destruct v; try discriminate; reflexivity.
Qed.

Lemma entity_call_json_not_dict_witness :
  run_entity_call sample_call 0 "2024-01-01 10:00:00"
    (fun _ => Answers (mkResponse 200 "[]" (JsonValue (VList [])) ""))
    (mkApi "k" SliteEventHandler.__init__)
    (CreateFolder "Team" "") quiet_world
  = ({| fx := SliteEventHandler.logger_error
                "Error creating folder: 'list' object has no attribute 'get'"
                SliteEventHandler.no_effects;
        sent := [entity_request "2024-01-01 10:00:00"
                   (mkApi "k" SliteEventHandler.__init__)
                   (CreateFolder "Team" "")];
        notes := [] |},
     Raised (no_attribute (VList []) "get")).
Proof.
  apply (entity_call_json_not_dict sample_call 0 "2024-01-01 10:00:00"
           (fun _ => Answers (mkResponse 200 "[]" (JsonValue (VList [])) ""))
           (mkApi "k" SliteEventHandler.__init__)
           (CreateFolder "Team" "") quiet_world
           (mkResponse 200 "[]" (JsonValue (VList [])) "") (VList [])
           eq_refl eq_refl eq_refl eq_refl).
Defined.

(** X22.  When the call of [requests] raises, a method for folders or
    documents raises the same exception, not a wrapped one as the methods
    for notes do, after logging one error line if it is an [Exception]; no
    handler is called. *)
Theorem entity_call_request_fails
    (call : handler_call) (fuel : nat) (now : string)
    (net : request -> http_outcome) (self : api) (c : entity_call)
    (w : world) (e : pyexc) :
  net (entity_request now self c) = Fails e ->
  run_entity_call call fuel now net self c w
  = ({| fx := if is_Exception (cls e)
              then SliteEventHandler.logger_error
                     (entity_error_prefix c +:+ msg e) (fx w)
              else fx w;
        sent := sent w ++ [entity_request now self c];
        notes := notes w |},
     Raised e).
Proof.
  open_entity_call now c; intros Hnet; rewrite Hnet; cbv beta iota;
    destruct (is_Exception (cls e)); reflexivity.
Qed.

Lemma entity_call_request_fails_witness :
  run_entity_call sample_call 0 "2024-01-01 10:00:00"
    (fun _ => Fails {| cls := CRequestException; msg := "timed out" |})
    (mkApi "k" SliteEventHandler.__init__)
    (CreateDocument "T" "text" (Some "f1")) quiet_world
  = ({| fx := SliteEventHandler.logger_error
                "Error creating document: timed out"
                SliteEventHandler.no_effects;
        sent := [entity_request "2024-01-01 10:00:00"
                   (mkApi "k" SliteEventHandler.__init__)
                   (CreateDocument "T" "text" (Some "f1"))];
        notes := [] |},
     Raised {| cls := CRequestException; msg := "timed out" |}).
Proof.
  apply (entity_call_request_fails sample_call 0 "2024-01-01 10:00:00"
           (fun _ => Fails {| cls := CRequestException; msg := "timed out" |})
           (mkApi "k" SliteEventHandler.__init__)
           (CreateDocument "T" "text" (Some "f1")) quiet_world
           {| cls := CRequestException; msg := "timed out" |} eq_refl).
Defined.



(** * The formatter of meeting notes *)

Import MeetingNotes.

Section FormatterProperties.

Variable container_str : value -> string.
Variable keys_of : dict -> list string.

Lemma strings_from_returns (i : nat) (vs : list value) :
  Forall (fun v => is_str v = true) vs <->
  exists ss, strings_from i vs = Returned ss.
Proof.
  revert i. induction vs as [|v vs IH]; intros i; simpl.
  - split; [eauto | constructor].
  - split.
    + intros H. inversion H as [|? ? Hv Hvs]; subst.
      destruct v; try discriminate.
      apply (IH (S i)) in Hvs as [ss ->]. simpl. eauto.
    + intros [ss H]. destruct v; try discriminate.
      constructor; [reflexivity|]. apply (IH (S i)).
      destruct (strings_from (S i) vs); [eauto | discriminate..].
Qed.


Lemma collect_inv (f : value -> outcome (list value)) (xs ls : list value)
    (x : value) :
  collect f xs = Returned ls -> In x xs ->
  exists a, f x = Returned a /\ incl a ls.
Proof.
  revert ls. induction xs as [|y xs IH]; intros ls H Hin; [destruct Hin|].
  simpl in H. destruct (f y) as [a| | |] eqn:Ea; [|discriminate..].
  destruct (collect f xs) as [b| | |] eqn:Eb; [|discriminate..].
  simpl in H. injection H as <-. destruct Hin as [<-|Hin].
  - exists a. split; [exact Ea | apply incl_appl, incl_refl].
  - destruct (IH _ eq_refl Hin) as (a' & Ha' & Hincl).
    exists a'. split; [exact Ha' | apply incl_appr, Hincl].
Qed.




(** X24.  When the formatter returns, every item of a list [content] of a
    section of a list [sections] has [details] that are absent, a string or
    a list: [details] of any other type (a number, [None], a dict) go into
    the lines as they are and make the final [join] raise [TypeError]. *)
Theorem format_details_are_text (notes_data : dict) (markdown : string)
    (sections items : list value) (section item : dict) (details : value) :
  format_meeting_notes_markdown container_str keys_of notes_data
  = Returned markdown ->
  notes_data !! "sections" = Some (VList sections) ->
  In (VDict section) sections ->
  section !! "content" = Some (VList items) ->
  In (VDict item) items ->
  item !! "details" = Some details ->
  (exists s, details = VStr s) \/ (exists l, details = VList l).
Proof.
  unfold format_meeting_notes_markdown.
  intros H Hsec Hin Hcontent Hitem Hdetails.
  destruct (get (default (VDict ∅) (notes_data !! "metadata")) "date"
              (VStr "N/A")) as [date| | |]; [|discriminate..].
  destruct (get (default (VDict ∅) (notes_data !! "metadata")) "time"
              (VStr "N/A")) as [time| | |]; [|discriminate..].
  destruct (get (default (VDict ∅) (notes_data !! "metadata"))
              "attendees_count" (VInt 0)) as [n| | |]; [|discriminate..].
  destruct (get (default (VDict ∅) (notes_data !! "metadata")) "facilitator"
              (VStr "N/A")) as [f| | |]; [|discriminate..].
  rewrite Hsec in H. simpl in H.
  destruct (collect (format_section container_str keys_of) sections)
    as [body| | |] eqn:Ebody; [|discriminate..].
  simpl in H.
  destruct (strings_from 5 body) as [ss| | |] eqn:Ess; [|discriminate..].
  assert (Hbody : Forall (fun v => is_str v = true) body)
    by (apply (strings_from_returns 5); eauto).
  destruct (collect_inv _ _ _ _ Ebody Hin) as (a & Ha & Hincl).
  unfold format_section in Ha. simpl in Ha. rewrite Hcontent in Ha.
  simpl in Ha.
  destruct (collect (format_item container_str) items) as [lines| | |] eqn:El;
    [|discriminate..].
  simpl in Ha. injection Ha as <-.
  destruct (collect_inv _ _ _ _ El Hitem) as (b & Hb & Hinclb).
  unfold format_item in Hb. simpl in Hb. rewrite Hdetails in Hb.
  simpl in Hb.
  assert (Hd : forall v, In v b -> is_str v = true).
  { intros v Hv. rewrite List.Forall_forall in Hbody. apply Hbody, Hincl.
    right. apply in_or_app. left. apply Hinclb, Hv. }
  destruct details as [| | | s | l |]; eauto;
    injection Hb as <-;
    (assert (is_str _ = true) as Hs
       by (apply Hd, in_or_app; right; left; reflexivity));
    discriminate.
Qed.

End FormatterProperties.


Lemma format_details_are_text_witness :
  (exists s, VStr "a" = VStr s) \/ (exists l, VStr "a" = VList l).
Proof.
  apply (format_details_are_text (fun _ => "") (fun _ => [])
           {["sections" :=
               VList [VDict {["content" :=
                                VList [VDict {["details" := VStr "a"]}]]}]]}
           ("# Meeting Details" +:+ nl +:+ nl
            +:+ "**Date:** N/A" +:+ nl
            +:+ "**Time:** N/A" +:+ nl
            +:+ "**Attendees:** 0 attendees" +:+ nl
            +:+ "**Facilitator:** N/A" +:+ nl +:+ nl
            +:+ "# Untitled Section" +:+ nl +:+ "a" +:+ nl)
           [VDict {["content" := VList [VDict {["details" := VStr "a"]}]]}]
           [VDict {["details" := VStr "a"]}]
           {["content" := VList [VDict {["details" := VStr "a"]}]]}
           {["details" := VStr "a"]} (VStr "a")).
  - reflexivity.
  - reflexivity.
  - left. reflexivity.
  - reflexivity.
  - left. reflexivity.
  - reflexivity.
Defined.

(** * Lines joined and split *)

Lemma split_nonempty (sep : ascii) (s : string) : split sep s <> [].
Proof.
  destruct s as [|c s]; simpl; [discriminate|].
  destruct (Ascii.eqb c sep); [discriminate|].
  destruct (split sep s); discriminate.
Qed.

Lemma join_cons (sep s : string) (t : string) (ts : list string) :
  join sep (s :: t :: ts) = s +:+ sep +:+ join sep (t :: ts).
Proof. reflexivity. Qed.

Lemma join_split (sep : ascii) (s : string) :
  join (String sep EmptyString) (split sep s) = s.
Proof.
  induction s as [|c s IH]; [reflexivity|]. simpl split.
  pose proof (split_nonempty sep s) as Hne.
  destruct (Ascii.eqb_spec c sep) as [->|Hc].
  - destruct (split sep s) as [|l ls]; [congruence|].
    rewrite join_cons, IH. reflexivity.
  - destruct (split sep s) as [|l ls]; [congruence|].
    destruct ls as [|l' ls].
    + simpl in *. rewrite IH. reflexivity.
    + rewrite join_cons in *. rewrite <- IH. reflexivity.
Qed.

Lemma split_line (sep : ascii) (s : string) :
  contains sep s = false -> split sep s = [s].
Proof.
  induction s as [|c s IH]; [reflexivity|].
  simpl. intros H. apply orb_false_iff in H as [Hc Hs].
  rewrite Hc, (IH Hs). reflexivity.
Qed.

Lemma split_line_then (sep : ascii) (s t : string) :
  contains sep s = false ->
  split sep (s +:+ String sep t) = s :: split sep t.
Proof.
  induction s as [|c s IH]; intros H.
  - simpl. rewrite Ascii.eqb_refl. reflexivity.
  - simpl in H. apply orb_false_iff in H as [Hc Hs].
    change (String c s +:+ String sep t) with (String c (s +:+ String sep t)).
    simpl split. rewrite Hc, (IH Hs). reflexivity.
Qed.

(** X25.  [split] undoes [join] and [join] undoes [split] for the line
    break: a text splits into lines that join back to the text, and one or
    more lines without a line break in them, joined as the formatter joins
    its lines, split into the same lines, so that the converter reads a
    joined text line by line as it was put together. *)
Theorem split_join_round_trip :
  (forall s : string, join nl (split newline s) = s)
  /\ (forall ss : list string,
        ss <> [] -> Forall (fun s => contains newline s = false) ss ->
        split newline (join nl ss) = ss).
Proof.
  split; [exact (join_split newline)|].
  induction ss as [|s ss IH]; [congruence|]. intros _ H.
  inversion H as [|? ? Hs Hss]; subst.
  destruct ss as [|t ts]; [exact (split_line _ _ Hs)|].
  rewrite join_cons.
  change (s +:+ nl +:+ join nl (t :: ts))
    with (s +:+ String newline (join nl (t :: ts))).
  rewrite (split_line_then _ _ _ Hs). f_equal. apply IH; [discriminate|].
  exact Hss.
Qed.

Lemma split_join_round_trip_witness :
  split newline (join nl ["# Topics"; "- a"; ""]) = ["# Topics"; "- a"; ""].
Proof.
  apply (proj2 split_join_round_trip ["# Topics"; "- a"; ""]).
  - discriminate.
  - repeat constructor.
Defined.

(** * Reading order *)

Lemma process_line_kind (st st' : state) (raw : string) :
  process_line st raw = Ok st' ->
  st' = match kind_of raw with
        | KBlank => blank_line st
        | KBullet => bullet_line (strip (rstrip raw)) st
        | KHeading => heading_line (rstrip raw) st
        | KText => regular_line (rstrip raw) st
        end.
Proof.
  unfold process_line, kind_of.
  destruct (is_empty (rstrip raw)); [congruence|].
  destruct (startswith (strip (rstrip raw)) "- "); [congruence|].
  destruct (is_section_header (rstrip raw)); [congruence|].
  destruct (is_numbered_section (rstrip raw)) as [[|]|e]; simpl; congruence.
Qed.

Lemma line_text_kind (raw : string) :
  line_text raw = match kind_of raw with
                  | KBlank => EmptyString
                  | KBullet => slice_from 2 (strip (rstrip raw))
                  | _ => rstrip raw
                  end.
Proof.
  unfold kind_of. destruct (is_empty (rstrip raw)) eqn:E0.
  - apply line_text_blank, E0.
  - unfold line_text. destruct (startswith (strip (rstrip raw)) "- ");
      [reflexivity|].
    destruct (is_section_header (rstrip raw)); [reflexivity|].
    destruct (is_numbered_section (rstrip raw)) as [[|]|e]; reflexivity.
Qed.

Lemma flat_map_same {A B : Type} (f g : A -> list B) (xs : list A) :
  (forall x, In x xs -> f x = g x) -> flat_map f xs = flat_map g xs.
Proof.
  induction xs as [|x xs IH]; intros H; simpl; [reflexivity|].
  rewrite (H x (or_introl eq_refl)), IH; [reflexivity|].
  intros y Hy. apply H. right. exact Hy.
Qed.

(** The texts of valid locations after an allocation. *)
Lemma texts_alloc (h : list node) (n : node) (ls : list loc) :
  Forall (fun l : loc => l < length h) ls ->
  flat_map (fun l : loc => texts ((h ++ [n]) !!! l)) ls
  = flat_map (fun l : loc => texts (h !!! l)) ls.
Proof.
  intros H. apply flat_map_same. intros l Hl.
  rewrite List.Forall_forall in H.
  rewrite lookup_total_app_l by exact (H l Hl). reflexivity.
Qed.

Lemma texts_new (h : list node) (n : node) :
  texts ((h ++ [n]) !!! length h) = texts n.
Proof.
  rewrite (list_lookup_total_correct (h ++ [n]) (length h) n);
    [reflexivity|].
  apply list_lookup_middle. reflexivity.
Qed.

(** The texts of the other locations after an append. *)
Lemma texts_append_other (h : list node) (l : loc) (x : node) (ls : list loc) :
  ~ In l ls ->
  flat_map (fun l' : loc => texts (alter (content_append x) l h !!! l')) ls
  = flat_map (fun l' : loc => texts (h !!! l')) ls.
Proof.
  intros H. apply flat_map_same. intros l' Hl'.
  rewrite list_lookup_total_alter_ne; [reflexivity|].
  intros ->. exact (H Hl').
Qed.

Lemma texts_append_same (h : list node) (l : loc) (x : node) (ty : string) :
  node_type <$> h !! l = Some ty -> ty <> "text" ->
  texts (alter (content_append x) l h !!! l) = texts (h !!! l) ++ texts x.
Proof.
  intros H Hty. destruct (type_not_text _ _ _ H Hty) as (n & Hn & Hnt).
  rewrite (list_lookup_total_correct _ _ _ Hn).
  rewrite (list_lookup_total_correct _ l (content_append x n)).
  - apply texts_content_append, Hnt.
  - rewrite list_lookup_alter_eq, Hn. reflexivity.
Qed.

Lemma blank_line_tidy (st : state) :
  tidy false st ->
  tidy false (blank_line st)
  /\ state_texts (blank_line st) = state_texts st ++ [EmptyString].
Proof.
  intros (Hwf & Hcp & Hd & Hx). specialize (Hcp eq_refl).
  destruct (wf_open_refs _ Hwf) as [Hol _]. pose proof Hwf as (Hdc & _ & _).
  split.
  - split; [apply blank_line_wf, Hwf|]. rewrite blank_line_spec. simpl.
    rewrite Hcp. split; [reflexivity|]. split; [|left; reflexivity].
    intros l _. split; discriminate.
  - unfold state_texts. rewrite blank_line_spec. simpl. rewrite Hcp. simpl.
    rewrite ?app_nil_r, ?flat_map_app. simpl.
    rewrite (texts_alloc _ _ _ Hdc), (texts_alloc _ _ _ Hol), texts_new.
    simpl. rewrite <- !app_assoc. reflexivity.
Qed.

Lemma heading_line_tidy (line : string) (open : bool) (st : state) :
  tidy open st ->
  tidy false (heading_line line st)
  /\ state_texts (heading_line line st) = state_texts st ++ [line].
Proof.
  intros (Hwf & _ & Hd & Hx).
  destruct (wf_open_refs _ Hwf) as [Hol Hop]. pose proof Hwf as (Hdc & _ & _).
  split.
  - split; [apply heading_line_wf, Hwf|]. rewrite heading_line_spec. simpl.
    split; [reflexivity|]. split; [|left; reflexivity].
    intros l _. split; discriminate.
  - unfold state_texts. rewrite heading_line_spec. simpl.
    rewrite ?app_nil_r, ?flat_map_app. simpl.
    rewrite (texts_alloc _ _ _ Hdc), (texts_alloc _ _ _ Hol),
      (texts_alloc _ _ _ Hop), texts_new.
    simpl. rewrite <- !app_assoc. reflexivity.
Qed.

Lemma not_in_valid (h : list node) (ls : list loc) :
  Forall (fun l : loc => l < length h) ls -> ~ In (length h) ls.
Proof.
  intros H Hin. rewrite List.Forall_forall in H. specialize (H _ Hin). lia.
Qed.

Lemma bullet_line_tidy (s : string) (st : state) :
  tidy false st ->
  tidy false (bullet_line s st)
  /\ state_texts (bullet_line s st) = state_texts st ++ [slice_from 2 s].
Proof.
  intros (Hwf & Hcp & Hd & Hx). specialize (Hcp eq_refl).
  pose proof Hwf as (Hdc & Hl & _).
  split.
  - split; [apply bullet_line_wf, Hwf|]. rewrite bullet_line_spec. simpl.
    rewrite Hcp. split; [reflexivity|]. split; [|right; reflexivity].
    intros l Hin. split; [|discriminate].
    destruct (current_list st) as [cl|] eqn:Ecl; simpl.
    + exact (proj1 (Hd l Hin)).
    + intros [= <-]. exact (not_in_valid _ _ Hdc Hin).
  - unfold state_texts. rewrite bullet_line_spec. simpl. rewrite Hcp.
    destruct (current_list st) as [cl|] eqn:Ecl; simpl;
      rewrite ?app_nil_r, ?flat_map_app; simpl; rewrite ?app_nil_r.
    + rewrite texts_append_other
        by (intros Hin; exact (proj1 (Hd cl Hin) eq_refl)).
      rewrite (texts_append_same _ _ _ _ (Hl cl eq_refl)) by discriminate.
      simpl. rewrite app_assoc. reflexivity.
    + rewrite (texts_alloc _ _ _ Hdc), texts_new. reflexivity.
Qed.

Lemma regular_line_tidy (line : string) (open : bool) (st : state) :
  tidy open st ->
  tidy true (regular_line line st)
  /\ state_texts (regular_line line st) = state_texts st ++ [line].
Proof.
  intros (Hwf & _ & Hd & Hx).
  destruct (wf_open_refs _ Hwf) as [Hol _]. pose proof Hwf as (Hdc & _ & Hp).
  split.
  - split; [apply regular_line_wf, Hwf|]. rewrite regular_line_spec. simpl.
    split; [discriminate|]. split; [|left; reflexivity].
    intros l Hin. split; [discriminate|].
    apply in_app_iff in Hin as [Hin|Hin].
    + destruct (current_paragraph st) as [cp|] eqn:Ecp; simpl.
      * exact (proj2 (Hd l Hin)).
      * intros [= <-]. exact (not_in_valid _ _ Hdc Hin).
    + destruct (current_paragraph st) as [cp|] eqn:Ecp; simpl.
      * destruct Hx as [Hx|Hx]; [|discriminate].
        rewrite Hx in Hin. destruct Hin.
      * intros [= <-]. exact (not_in_valid _ _ Hol Hin).
  - unfold state_texts. rewrite regular_line_spec. simpl.
    destruct (current_paragraph st) as [cp|] eqn:Ecp; simpl.
    + destruct Hx as [Hx|Hx]; [|discriminate]. rewrite Hx. simpl.
      rewrite ?app_nil_r, ?flat_map_app. simpl. rewrite ?app_nil_r.
      rewrite texts_append_other
        by (intros Hin; exact (proj2 (Hd cp Hin) eq_refl)).
      rewrite (texts_append_same _ _ _ _ (Hp cp eq_refl)) by discriminate.
      simpl. rewrite app_assoc. reflexivity.
    + rewrite ?app_nil_r, ?flat_map_app. simpl. rewrite ?app_nil_r.
      rewrite (texts_alloc _ _ _ Hdc), (texts_alloc _ _ _ Hol), texts_new.
      reflexivity.
Qed.

Lemma process_lines_in_order (lines : list string) (open : bool)
    (st st' : state) :
  process_lines st lines = Ok st' -> tidy open st ->
  in_order open lines = true ->
  state_texts st' = state_texts st ++ map line_text lines.
Proof.
  revert open st. induction lines as [|raw rest IH]; intros open st H Ht Ho;
    simpl in H.
  - inversion H. subst. simpl. rewrite app_nil_r. reflexivity.
  - destruct (process_line st raw) as [st1|e] eqn:E; simpl in H;
      [|discriminate].
    apply process_line_kind in E. simpl in Ho. simpl map.
    rewrite (line_text_kind raw).
    destruct (kind_of raw).
    + apply andb_true_iff in Ho as [Hopen Ho].
      apply negb_true_iff in Hopen. subst open st1.
      destruct (blank_line_tidy _ Ht) as [Ht1 Hs].
      rewrite (IH _ _ H Ht1 Ho), Hs, <- app_assoc. reflexivity.
    + apply andb_true_iff in Ho as [Hopen Ho].
      apply negb_true_iff in Hopen. subst open st1.
      destruct (bullet_line_tidy (strip (rstrip raw)) _ Ht) as [Ht1 Hs].
      rewrite (IH _ _ H Ht1 Ho), Hs, <- app_assoc. reflexivity.
    + subst st1. destruct (heading_line_tidy (rstrip raw) _ _ Ht) as [Ht1 Hs].
      rewrite (IH _ _ H Ht1 Ho), Hs, <- app_assoc. reflexivity.
    + subst st1. destruct (regular_line_tidy (rstrip raw) _ _ Ht) as [Ht1 Hs].
      rewrite (IH _ _ H Ht1 Ho), Hs, <- app_assoc. reflexivity.
Qed.

Lemma init_tidy : tidy false init.
Proof.
  split; [exact init_wf|]. split; [reflexivity|].
  split; [intros l []|left; reflexivity].
Qed.

Lemma read_doc_state_texts (st : state) :
  texts (read_doc (finish st)) = state_texts st.
Proof.
  unfold read_doc, state_texts. rewrite finish_heap, finish_spec. simpl.
  rewrite flat_map_concat_map, map_map, <- flat_map_concat_map. reflexivity.
Qed.

(** X26.  When no blank line and no bullet line of the text comes while a
    paragraph is open (a paragraph is open from a line of regular text up
    to the next heading), the text leaves of the returned document, read
    from left to right, are the texts of the lines of the input, in the
    order of the input and each once. *)
Theorem convert_in_reading_order (s : string) (d : node) :
  _convert_to_prosemirror s = Ok d ->
  in_order false (split newline s) = true ->
  texts d = map line_text (split newline s).
Proof.
  unfold _convert_to_prosemirror. intros H Ho.
  destruct (process_lines init (split newline s)) as [st|e] eqn:E;
    simpl in H; [|discriminate].
  injection H as <-.
  rewrite read_doc_state_texts.
  exact (process_lines_in_order _ _ _ _ E init_tidy Ho).
Qed.

Lemma convert_in_reading_order_witness :
  texts (Doc [Heading 2 [Text "Date: today"];
              BulletList [ListItem [Paragraph [Text "a"]];
                          ListItem [Paragraph [Text "b"]]];
              Paragraph [Text "x"; Text "y"];
              Heading 2 [Text "2. Next"];
              Paragraph [Text ""]])
  = map line_text
      (split newline
         ("Date: today" +:+ nl +:+ "- a" +:+ nl +:+ " - b" +:+ nl +:+ "x"
          +:+ nl +:+ "y " +:+ nl +:+ "2. Next" +:+ nl)).
Proof.
  apply (convert_in_reading_order
           ("Date: today" +:+ nl +:+ "- a" +:+ nl +:+ " - b" +:+ nl +:+ "x"
            +:+ nl +:+ "y " +:+ nl +:+ "2. Next" +:+ nl));
    reflexivity.
Defined.
